(** * langchain_mcp_toolkit: the server control surface and the client
      dispatch core

    A shallow embedding of
      - [services/server_service.py]  ([MCPServerService]) and
      - [services/client_service.py]  ([MCPClientService]),
    followed by the properties of these two services, and of the code
    built on them: the tools of [tools/server_tools.py] and
    [tools/client_tools.py], the factory of [factory.py] and the toolkit
    of [toolkit.py].

    Both services are thin, stateful wrappers around collaborator objects
    (the MCP server handle, the client session, the multi-server router).
    The collaborators are not part of the repository, so they are modelled
    as a [world]: a record of oracles that answers every method call,
    constructor call and attribute assignment, possibly by raising.  Every
    interaction with a collaborator is appended to a [trace], which is how
    statements such as "the handle is not touched" or "the router is called
    with these three positional arguments" are expressed. *)

From stdpp Require Import gmap strings list pretty.

Set Warnings "-register-all".
Local Open Scope Z_scope.

(* ===================================================================== *)
(** * Python: values, exceptions, collaborators, and the method monad    *)
(* ===================================================================== *)

Module Py.

(** ** Syntax of tool bodies

    The sandbox receives the text of a function body.  The development
    sees the text through the Python compiler: a block of statements, or a
    text that the compiler rejects. *)

Inductive expr :=
| EName (x : string)
| EStr (s : string)
| EInt (n : Z)
| EAttr (e : expr) (attr : string)
| ECall (f : expr) (args : list expr).

Inductive stmt :=
| SPass
| SExpr (e : expr)
| SAssign (x : string) (e : expr)
| SReturn (e : expr).

Inductive code_text :=
| Malformed (msg : string)      (* rejected by the compiler with this message *)
| Block (body : list stmt).     (* an indented block of statements *)

(** Identifiers.  The name of a tool becomes the name of a function, so
    it has to be one: a letter or underscore, then letters, digits and
    underscores, and not a word the language reserves. *)
Definition ident_start (a : Ascii.ascii) : bool :=
  let n := Ascii.N_of_ascii a in
  ((65 <=? n) && (n <=? 90) || (97 <=? n) && (n <=? 122) || (n =? 95))%N.

Definition ident_char (a : Ascii.ascii) : bool :=
  let n := Ascii.N_of_ascii a in
  ident_start a || ((48 <=? n) && (n <=? 57))%N.

Definition reserved_words : list string :=
  [ "False"; "None"; "True"; "and"; "as"; "assert"; "async"; "await";
    "break"; "class"; "continue"; "def"; "del"; "elif"; "else"; "except";
    "finally"; "for"; "from"; "global"; "if"; "import"; "in"; "is";
    "lambda"; "nonlocal"; "not"; "or"; "pass"; "raise"; "return"; "try";
    "while"; "with"; "yield"; "__debug__" ].

Definition is_identifier (name : string) : bool :=
  match name with
  | EmptyString => false
  | String a rest =>
      ident_start a
      && forallb ident_char (String.list_ascii_of_string rest)
      && negb (bool_decide (name ∈ reserved_words))
  end.

(** What the compiler makes of a whole source file handed to [exec]. *)
Inductive toplevel :=
| FunctionDef (name : string) (kwarg : string) (body : list stmt).

Inductive compiled :=
| CompileError (msg : string)
| Module_ (stmts : list toplevel).

(** Names read by an expression / a statement. *)
Fixpoint expr_names (e : expr) : list string :=
  match e with
  | EName x => [x]
  | EStr _ | EInt _ => []
  | EAttr e _ => expr_names e
  | ECall f args => expr_names f ++ concat (map expr_names args)
  end.

Definition stmt_names (s : stmt) : list string :=
  match s with
  | SPass => []
  | SExpr e | SAssign _ e | SReturn e => expr_names e
  end.

(** Names bound inside the function: the keyword parameter and every
    assignment target (Python makes each assigned name local). *)
Definition stmt_binds (s : stmt) : list string :=
  match s with
  | SAssign x _ => [x]
  | _ => []
  end.

Definition global_names (kwarg : string) (body : list stmt) : list string :=
  filter (fun x => x ∉ kwarg :: concat (map stmt_binds body))
         (concat (map stmt_names body)).

(** ** Values *)

Inductive value :=
| VNone
| VBool (b : bool)
| VInt (z : Z)
| VStr (s : string)
| VList (l : list value)
| VDict (d : gmap string value)
| VObj (id : nat)                   (* a collaborator object, by identity *)
| VNullOutputStream                 (* an instance of [NullOutputStream] *)
| VBuiltin (name : string)          (* an entry of the builtins namespace *)
| VModule (name : string)
| VFunction (name kwarg : string) (body : list stmt)
            (globals : gmap string value).

(** Truth value of an object in a condition ([if x], [x or y]). *)
Definition truthy (v : value) : bool :=
  match v with
  | VNone => false
  | VBool b => b
  | VInt z => negb (z =? 0)
  | VStr s => negb (String.eqb s "")
  | VList l => match l with [] => false | _ => true end
  | VDict d => negb (bool_decide (d = ∅))
  | _ => true
  end.

(** [v == s] for a string literal [s]. *)
Definition eq_str (v : value) (s : string) : bool :=
  match v with
  | VStr s' => String.eqb s' s
  | _ => false
  end.

(** ** Exceptions

    Only classes deriving from [Exception] occur: these are the ones an
    [except Exception] clause catches. *)

Inductive exn_class :=
| ValueError | RuntimeError | ImportError | SyntaxError
| AttributeError | KeyError | TypeError
| OtherException (name : string).

Inductive exn :=
| Exn (cls : exn_class) (msg : string) (cause : option exn).

Definition exn_cls (e : exn) : exn_class := let 'Exn c _ _ := e in c.
(** [str(e)] *)
Definition exn_str (e : exn) : string := let 'Exn _ m _ := e in m.
(** [e.__cause__], set by [raise ... from e] *)
Definition exn_cause (e : exn) : option exn := let 'Exn _ _ c := e in c.

Inductive outcome (A : Type) :=
| Return (a : A)
| Raise (e : exn).
Arguments Return {A} a.
Arguments Raise {A} e.

(** ** Collaborators *)

Inductive event :=
| Call (target : nat) (method : string)
       (args : list value) (kwargs : gmap string value)
| New (cls : string) (args : list value) (kwargs : gmap string value)
| SetAttr (target : nat) (attr : string) (v : value).

Definition trace := list event.

(** Everything outside the repository.  An oracle sees the interactions
    so far, so collaborators may be stateful. *)
Record world := {
  on_call : trace -> nat -> string -> list value -> gmap string value ->
            outcome value;
  on_new : trace -> string -> list value -> gmap string value ->
           outcome nat;
  on_setattr : trace -> nat -> string -> value -> outcome unit;
  (* the interpreter's [__builtins__] dictionary *)
  builtins_items : list (string * value);
  (* outcome of the guarded imports at the top of client_service.py *)
  ClientSession_defined : bool;
  StdioServerParameters_defined : bool;
  stdio_client_defined : bool;
}.

(** ** The method monad: service state, trace, and exceptions

    A raised exception keeps the state reached so far: attribute
    assignments made before the [raise] are not rolled back. *)

Record state (Self : Type) := State { self : Self; log : trace }.
Arguments State {Self} self log.
Arguments self {Self} s.
Arguments log {Self} s.

Definition M (Self A : Type) : Type := state Self -> outcome A * state Self.

Section Monad.
Context {Self : Type}.

Definition ret {A} (a : A) : M Self A := fun s => (Return a, s).

Definition bind {A B} (m : M Self A) (k : A -> M Self B) : M Self B :=
  fun s => match m s with
           | (Return a, s') => k a s'
           | (Raise e, s') => (Raise e, s')
           end.

Definition raise {A} (e : exn) : M Self A := fun s => (Raise e, s).

(** [try: m  except Exception as e: h e] *)
Definition try_except {A} (m : M Self A) (h : exn -> M Self A) : M Self A :=
  fun s => match m s with
           | (Return a, s') => (Return a, s')
           | (Raise e, s') => h e s'
           end.

Definition get {A} (f : Self -> A) : M Self A :=
  fun s => (Return (f (self s)), s).

Definition modify (f : Self -> Self) : M Self unit :=
  fun s => (Return tt, State (f (self s)) (log s)).

Definition lift {A} (o : outcome A) : M Self A := fun s => (o, s).

Context (W : world).

Definition no_attribute (name : string) : exn :=
  Exn AttributeError ("object has no attribute '" +:+ name +:+ "'") None.

(** A method call on [target], with positional and keyword arguments. *)
Definition call (target : value) (method : string)
           (args : list value) (kwargs : gmap string value) : M Self value :=
  fun s => match target with
           | VObj id =>
               (on_call W (log s) id method args kwargs,
                State (self s) (log s ++ [Call id method args kwargs]))
           | _ => (Raise (no_attribute method), s)
           end.

(** [target.attr = v] *)
Definition setattr (target : value) (attr : string) (v : value)
  : M Self unit :=
  fun s => match target with
           | VObj id =>
               (on_setattr W (log s) id attr v,
                State (self s) (log s ++ [SetAttr id attr v]))
           | _ => (Raise (no_attribute attr), s)
           end.

(** Calling a collaborator class or factory [cls]. *)
Definition new (cls : string) (args : list value)
           (kwargs : gmap string value) : M Self value :=
  fun s => (match on_new W (log s) cls args kwargs with
            | Return id => Return (VObj id)
            | Raise e => Raise e
            end,
            State (self s) (log s ++ [New cls args kwargs])).
End Monad.

Declare Scope py_scope.
Delimit Scope py_scope with py.
Notation "x <- m ;; k" := (bind m (fun x => k))
  (at level 100, m at next level, right associativity) : py_scope.
Notation "m ;; k" := (bind m (fun _ => k))
  (at level 100, right associativity) : py_scope.

(** Substring test of the shape used in the statements below:
    [needle in s]. *)
Definition contains (needle s : string) : Prop :=
  exists pre post, s = pre +:+ needle +:+ post.

End Py.

Import Py.
Local Open Scope py_scope.

(* ===================================================================== *)
(** * services/server_service.py                                         *)
(* ===================================================================== *)

Module ServerService.

(** List of safe built-in functions *)
Definition safe_builtins : list string :=
  [ "dict"; "list"; "tuple"; "set"; "str"; "int"; "float"; "bool";
    "None"; "True"; "False"; "len"; "Exception"; "TypeError"; "ValueError";
    "print"; "range"; "enumerate"; "zip"; "map"; "filter"; "sum"; "min";
    "max" ].

(** The sandbox allow-list: the safe builtins and the two helper modules
    that [_compile_tool_code] adds by hand. *)
Definition allow_list : list string := safe_builtins ++ ["requests"; "json"].

(** [textwrap.indent(code_str, '    ')] followed by the f-string that puts
    the [def] line (function [name], one keyword-collecting parameter
    [kwargs]) in front of it, as the compiler sees
    the result.  This reading of the text is the compiler's when [name]
    is an identifier ([is_identifier]), which is what the registration
    interface asks for. *)
Definition full_code (name : string) (code_str : code_text) : compiled :=
  match code_str with
  | Malformed msg => CompileError msg
  | Block body => Module_ [FunctionDef name "kwargs" body]
  end.

(** [exec(source, globals)]: a [def] statement binds its name to a new
    function object whose globals are the dictionary passed to [exec];
    the body is compiled, not run.  [exec] first stores the builtins
    module under [__builtins__] when the dictionary lacks that key.  The
    function object records the dictionary as it is when the [def] runs. *)
Definition exec_toplevel (g : gmap string value) (t : toplevel)
  : gmap string value :=
  match t with
  | FunctionDef name kwarg body => <[name := VFunction name kwarg body g]> g
  end.

Definition exec (source : compiled) (globals : gmap string value)
  : outcome (gmap string value) :=
  match source with
  | CompileError msg => Raise (Exn SyntaxError msg None)
  | Module_ stmts =>
      let g := match globals !! "__builtins__" with
               | Some _ => globals
               | None => <["__builtins__" := VModule "builtins"]> globals
               end in
      Return (foldl exec_toplevel g stmts)
  end.

Record MCPServerService := {
  _is_running : bool;
  _host : string;
  _port : Z;
  _server : value;
}.

Definition set_is_running (b : bool) (s : MCPServerService) :=
  {| _is_running := b; _host := _host s; _port := _port s;
     _server := _server s |}.
Definition set_host (h : string) (s : MCPServerService) :=
  {| _is_running := _is_running s; _host := h; _port := _port s;
     _server := _server s |}.
Definition set_port (p : Z) (s : MCPServerService) :=
  {| _is_running := _is_running s; _host := _host s; _port := p;
     _server := _server s |}.

Definition not_running_error : string :=
  "Error: Server is not currently running, please start the server first".

Section Methods.
Context (W : world).

Abbreviation M := (M MCPServerService).

(** [raise RuntimeError(f"{prefix}{str(e)}") from e] *)
Definition wrap {A} (prefix : string) (e : exn) : M A :=
  raise (Exn RuntimeError (prefix +:+ exn_str e) (Some e)).

Definition start (host : string) (port : Z) : M string :=
  running <- get _is_running ;;
  if running then
    h <- get _host ;;
    p <- get _port ;;
    ret ("Server is already running: http://" +:+ h +:+ ":" +:+ pretty p)
  else
    try_except
      (modify (set_host host) ;;
       modify (set_port port) ;;
       srv <- get _server ;;
       setattr W srv "name" (VStr "mcp-server") ;;
       call W srv "start" [] {[ "host" := VStr host; "port" := VInt port ]} ;;
       modify (set_is_running true) ;;
       ret ("Server started at http://" +:+ host +:+ ":" +:+ pretty port))
      (wrap "Failed to start server: ").

Definition stop : M string :=
  running <- get _is_running ;;
  if negb running then ret "Server is not currently running"
  else
    try_except
      (srv <- get _server ;;
       call W srv "stop" [] ∅ ;;
       modify (set_is_running false) ;;
       ret "Server stopped")
      (wrap "Failed to stop server: ").

(** The first half of [_compile_tool_code], "Create a safe namespace":
    the dictionary handed to [exec]. *)
Definition safe_namespace : gmap string value :=
  let sandbox : gmap string value :=
    (* Add built-in functions and types *)
    foldl (fun sb '(k, v) =>
             if bool_decide (k ∈ safe_builtins) then <[k := v]> sb else sb)
          ∅ (builtins_items W) in
  let sandbox := <["requests" := VModule "requests"]> sandbox in
  <["json" := VModule "json"]> sandbox.

(** The globals of a function defined by [exec] in that dictionary. *)
Definition tool_globals : gmap string value :=
  <["__builtins__" := VModule "builtins"]> safe_namespace.

Definition _compile_tool_code (name : string) (code_str : code_text)
  : M value :=
  let sandbox := safe_namespace in
  (* Execute code *)
  sandbox <- lift (exec (full_code name code_str) sandbox) ;;
  match sandbox !! name with
  | Some f => ret f
  | None => raise (Exn KeyError name None)
  end.

Definition add_tool (name description : string) (code : code_text)
  : M string :=
  running <- get _is_running ;;
  if negb running then ret not_running_error
  else
    try_except
      (tool_func <- _compile_tool_code name code ;;
       srv <- get _server ;;
       call W srv "add_tool" [VStr name; tool_func; VStr description] ∅ ;;
       ret ("Tool '" +:+ name +:+ "' added to server"))
      (wrap "Failed to add tool: ").

Definition add_resource (name : string) (content : value)
           (description : string) : M string :=
  running <- get _is_running ;;
  if negb running then ret not_running_error
  else
    try_except
      (srv <- get _server ;;
       call W srv "add_resource" [VStr name; content] ∅ ;;
       ret ("Resource '" +:+ name +:+ "' added to server"))
      (wrap "Failed to add resource: ").

Definition add_prompt (name content description : string) : M string :=
  running <- get _is_running ;;
  if negb running then ret not_running_error
  else
    try_except
      (srv <- get _server ;;
       call W srv "add_prompt" [VStr name; VStr content] ∅ ;;
       ret ("Prompt '" +:+ name +:+ "' added to server"))
      (wrap "Failed to add prompt: ").

Definition is_running : M bool := get _is_running.

(** *** The rest of the class: URL, construction, the [server] property *)

Definition set_server (v : value) (s : MCPServerService) :=
  {| _is_running := _is_running s; _host := _host s; _port := _port s;
     _server := v |}.

(** [get_url] returns the handle's own answer when it is truthy, so its
    result is a value; the strings built here are [VStr]. *)
Definition get_url : M value :=
  running <- get _is_running ;;
  if negb running then ret (VStr "Server is not currently running")
  else
    try_except
      (srv <- get _server ;;
       url <- call W srv "get_url" [] ∅ ;;
       if truthy url then ret url
       else
         h <- get _host ;;
         p <- get _port ;;
         ret (VStr ("http://" +:+ h +:+ ":" +:+ pretty p)))
      (wrap "Failed to get server URL: ").

(** [MCPServerClass()]: the class [get_mcp_server_class] picked when the
    module was loaded. *)
Definition _create_default_server : M value :=
  try_except
    (new W "MCPServerClass" [] ∅)
    (wrap "Failed to create default MCP server: ").

(** [str.lower], on the letters A to Z.  Its only use is the comparison
    with "fastmcp"; no other character lowers to one of these letters, so
    the comparison comes out as in Python. *)
Definition lower_char (a : Ascii.ascii) : Ascii.ascii :=
  let n := Ascii.N_of_ascii a in
  if ((65 <=? n) && (n <=? 90))%N then Ascii.ascii_of_N (n + 32) else a.

Fixpoint lower (s : string) : string :=
  match s with
  | EmptyString => EmptyString
  | String a s => String (lower_char a) (lower s)
  end.

(** Whether [except ImportError] catches the exception: the class itself
    and, of the classes known by name, its subclass
    [ModuleNotFoundError]. *)
Definition is_import_error (e : exn) : bool :=
  match exn_cls e with
  | ImportError => true
  | OtherException name => String.eqb name "ModuleNotFoundError"
  | _ => false
  end.

(** The import of [FastMCP] and its instantiation are one interaction
    with the collaborators: a failed import is a ["FastMCP"] constructor
    that raises an [ImportError]. *)
Definition _create_custom_server (server_type : string) : M value :=
  try_except
    (if String.eqb (lower server_type) "fastmcp" then
       (* Try to import and create FastMCP server *)
       new W "FastMCP" [] ∅
     else
       raise (Exn ValueError ("Unsupported server type: " +:+ server_type)
                  None))
    (fun e =>
       if is_import_error e then
         wrap ("Failed to import server type '" +:+ server_type +:+ "': ") e
       else
         wrap ("Failed to create server type '" +:+ server_type +:+ "': ") e).

(** The fields [__init__] assigns before it creates the handle. *)
Definition blank : MCPServerService :=
  {| _is_running := false; _host := "localhost"; _port := 8000;
     _server := VNone |}.

(** [__init__], run on [blank]; [server_type] is [None] or a string. *)
Definition __init__ (server_type : option string) : M unit :=
  try_except
    (match server_type with
     | Some t =>
         if negb (String.eqb t "") then
           (* Create custom type server *)
           srv <- _create_custom_server t ;;
           modify (set_server srv)
         else
           srv <- new W "MCPServerClass" [] ∅ ;;
           modify (set_server srv)
     | None =>
         (* Create standard MCP server *)
         srv <- new W "MCPServerClass" [] ∅ ;;
         modify (set_server srv)
     end)
    (wrap "Failed to create MCP server: ").

(** The [server] property: getter and setter. *)
Definition server : M value :=
  srv <- get _server ;;
  match srv with
  | VNone =>
      srv <- _create_default_server ;;
      modify (set_server srv) ;;
      get _server
  | _ => get _server
  end.

Definition server_setter (v : value) : M unit := modify (set_server v).
End Methods.

(** The shape of an exception made by [wrap]. *)
Definition wrapped (e : exn) : Prop :=
  exists prefix cause,
    e = Exn RuntimeError (prefix +:+ exn_str cause) (Some cause).

End ServerService.

(* ===================================================================== *)
(** * services/client_service.py                                         *)
(* ===================================================================== *)

Module ClientService.

Record MCPClientService := {
  client : value;
  _is_connected : bool;
  _is_multi_client : bool;
  _verbose : bool;
}.

Definition __init__ (verbose : bool) : MCPClientService :=
  {| client := VNone; _is_connected := false; _is_multi_client := false;
     _verbose := verbose |}.

Definition set_client (c : value) (s : MCPClientService) :=
  {| client := c; _is_connected := _is_connected s;
     _is_multi_client := _is_multi_client s; _verbose := _verbose s |}.
Definition set_is_connected (b : bool) (s : MCPClientService) :=
  {| client := client s; _is_connected := b;
     _is_multi_client := _is_multi_client s; _verbose := _verbose s |}.
Definition set_is_multi_client (b : bool) (s : MCPClientService) :=
  {| client := client s; _is_connected := _is_connected s;
     _is_multi_client := b; _verbose := _verbose s |}.

(** First argument of [create]: a URL or a multi-server configuration
    dictionary ([isinstance(url_or_configs, dict)]). *)
Inductive target :=
| Url (url : string)
| Configs (server_configs : gmap string (gmap string value)).

(** The LangChain objects built by the prompt conversion. *)
Inductive message :=
| HumanMessage (content : value)
| AIMessage (content : value)
| ChatMessage (role content : value)
| MessagesPlaceholder (variable_name : string).

Inductive ChatPromptTemplate :=
| from_messages (messages : list message).

(** The message classes validate their fields when they are
    instantiated.  The content of a message is a string or a list of
    strings and dictionaries, the role of a [ChatMessage] is a string;
    anything else is refused with a [ValidationError]. *)
Definition content_ok (v : value) : bool :=
  match v with
  | VStr _ => true
  | VList l =>
      forallb (fun x => match x with VStr _ | VDict _ => true | _ => false end)
              l
  | _ => false
  end.

Definition role_ok (v : value) : bool :=
  match v with
  | VStr _ => true
  | _ => false
  end.

Definition validation_error (cls : string) : exn :=
  Exn (OtherException "ValidationError") ("validation error for " +:+ cls)
      None.

(** [HumanMessage(content=...)], [AIMessage(content=...)] and
    [ChatMessage(role=..., content=...)]. *)
Definition new_HumanMessage (content : value) : outcome message :=
  if content_ok content then Return (HumanMessage content)
  else Raise (validation_error "HumanMessage").

Definition new_AIMessage (content : value) : outcome message :=
  if content_ok content then Return (AIMessage content)
  else Raise (validation_error "AIMessage").

Definition new_ChatMessage (role content : value) : outcome message :=
  if role_ok role && content_ok content then Return (ChatMessage role content)
  else Raise (validation_error "ChatMessage").

Definition not_connected : exn :=
  Exn ValueError "Client service not connected" None.
Definition not_created : exn := Exn ValueError "Client not created" None.

(** [x or default] on an optional string / list / dictionary. *)
Definition str_or (x : option string) (default : string) : string :=
  match x with
  | Some s => if String.eqb s "" then default else s
  | None => default
  end.

Definition list_or {A} (x : option (list A)) (default : list A) : list A :=
  match x with
  | Some (a :: l) => a :: l
  | _ => default
  end.

Definition dict_or (x : option (gmap string value))
           (default : gmap string value) : gmap string value :=
  match x with
  | Some d => if bool_decide (d = ∅) then default else d
  | None => default
  end.

Definition optional_dict (x : option (gmap string value)) : value :=
  match x with
  | Some d => VDict d
  | None => VNone
  end.

(** Truth value of an optional server name ([and target_server]). *)
Definition named (target_server : option string) : bool :=
  match target_server with
  | Some s => negb (String.eqb s "")
  | None => false
  end.

(** [for msg in v]: the elements the loop visits.  Collaborator objects
    are taken not to implement iteration. *)
Definition iterate (v : value) : outcome (list value) :=
  match v with
  | VList l => Return l
  | VDict d => Return (VStr <$> (map_to_list d).*1)
  | VStr s => Return ((fun a => VStr (String a EmptyString))
                        <$> String.list_ascii_of_string s)
  | _ => Raise (Exn TypeError "object is not iterable" None)
  end.

Section Methods.
Context (W : world).

Abbreviation M := (M MCPClientService).

(** Raise [ValueError(f"{prefix}{e}") from e] *)
Definition value_error {A} (prefix : string) (e : exn) : M A :=
  raise (Exn ValueError (prefix +:+ exn_str e) (Some e)).

Definition _check_connection : M unit :=
  connected <- get _is_connected ;;
  if negb connected then raise not_connected else ret tt.

(** The test [if self.client is None: raise ValueError("Client not
    created")] that every method repeats; yields the handle. *)
Definition _client_or_raise : M value :=
  c <- get client ;;
  match c with
  | VNone => raise not_created
  | _ => ret c
  end.

Definition _create_multi_server_client
           (server_configs : gmap string (gmap string value)) : M value :=
  try_except
    (new W "MultiServerMCPClient" [VDict (VDict <$> server_configs)] ∅)
    (value_error "Failed to create multi-server client: ").

Definition create (url_or_configs : target) (transport_type : string)
           (command : option string) (args : option (list string))
           (output_stream : value) : M string :=
  connected <- get _is_connected ;;
  if connected then
    raise (Exn ValueError "Client service already connected" None)
  else
    (* Handle output stream *)
    let output_stream := match output_stream with
                         | VNone => VNullOutputStream
                         | s => s
                         end in
    match url_or_configs with
    | Configs server_configs =>
        try_except
          (c <- _create_multi_server_client server_configs ;;
           modify (set_client c) ;;
           modify (set_is_multi_client true) ;;
           modify (set_is_connected true) ;;
           ret "Multi-server client created")
          (value_error "Failed to create multi-server client: ")
    | Url url =>
        if String.eqb transport_type "sse" then
          try_except
            ((if ClientSession_defined W then ret tt
              else raise (Exn ImportError "ClientSession not defined" None)) ;;
             c <- new W "ClientSession" [VStr url]
                      {[ "write_stream" := output_stream ]} ;;
             modify (set_client c) ;;
             modify (set_is_connected true) ;;
             modify (set_is_multi_client false) ;;
             ret ("Client created connected to " +:+ url))
            (value_error "Failed to create SSE client: ")
        else if String.eqb transport_type "stdio" then
          try_except
            ((if StdioServerParameters_defined W && stdio_client_defined W
              then ret tt
              else raise (Exn ImportError
                "StdioServerParameters or stdio_client not defined" None)) ;;
             let cmd := str_or command "python" in
             let cmd_args := list_or args [url] in
             params <- new W "StdioServerParameters" []
                           {[ "command" := VStr cmd;
                              "args" := VList (VStr <$> cmd_args) ]} ;;
             c <- new W "stdio_client" [params] ∅ ;;
             modify (set_client c) ;;
             modify (set_is_connected true) ;;
             modify (set_is_multi_client false) ;;
             ret ("Client created connected to " +:+ url))
            (value_error "Failed to create stdio client: ")
        else
          raise (Exn ValueError
                   ("Unsupported transport type: " +:+ transport_type) None)
    end.

Definition connect : M string :=
  c <- _client_or_raise ;;
  call W c "connect" [] ∅ ;;
  modify (set_is_connected true) ;;
  ret "Connection successful".

Definition disconnect : M string :=
  c <- _client_or_raise ;;
  call W c "disconnect" [] ∅ ;;
  modify (set_is_connected false) ;;
  ret "Disconnected".

Definition call_tool (server_name tool_name : string)
           (kwargs : gmap string value) : M value :=
  _check_connection ;;
  c <- _client_or_raise ;;
  multi <- get _is_multi_client ;;
  if multi then
    call W c "call_tool" [VStr server_name; VStr tool_name; VDict kwargs] ∅
  else
    call W c "call_tool" [VStr tool_name] kwargs.

Definition list_tools (include_server_prefix : bool) : M value :=
  _check_connection ;;
  c <- _client_or_raise ;;
  multi <- get _is_multi_client ;;
  if multi then
    call W c "list_all_tools" []
         {[ "include_prefix" := VBool include_server_prefix ]}
  else
    call W c "list_tools" [] ∅.

Definition get_prompt (prompt_name : string)
           (arguments : option (gmap string value))
           (server_name : string) : M value :=
  _check_connection ;;
  c <- _client_or_raise ;;
  multi <- get _is_multi_client ;;
  if multi then
    (* Get specific server's client *)
    sub <- call W c "get_client" [VStr server_name] ∅ ;;
    if truthy sub then
      call W sub "get_prompt"
           [VStr prompt_name; VDict (dict_or arguments ∅)] ∅
    else ret (VDict ∅)
  else
    call W c "get_prompt" [VStr prompt_name; optional_dict arguments] ∅.

Definition list_resources (server_name : string) : M value :=
  _check_connection ;;
  c <- _client_or_raise ;;
  multi <- get _is_multi_client ;;
  if multi then
    sub <- call W c "get_client" [VStr server_name] ∅ ;;
    if truthy sub then call W sub "list_resources" [] ∅
    else ret (VList [])
  else
    call W c "list_resources" [] ∅.

Definition read_resource (resource_name server_name : string) : M value :=
  _check_connection ;;
  c <- _client_or_raise ;;
  multi <- get _is_multi_client ;;
  if multi then
    sub <- call W c "get_client" [VStr server_name] ∅ ;;
    if truthy sub then call W sub "read_resource" [VStr resource_name] ∅
    else ret (VDict ∅)
  else
    call W c "read_resource" [VStr resource_name] ∅.

Definition list_prompts (server_name : string) : M value :=
  _check_connection ;;
  c <- _client_or_raise ;;
  multi <- get _is_multi_client ;;
  if multi then
    sub <- call W c "get_client" [VStr server_name] ∅ ;;
    if truthy sub then call W sub "list_prompts" [] ∅
    else ret (VList [])
  else
    call W c "list_prompts" [] ∅.

(** [msg.get(key, dflt)]: a dictionary answers by itself, anything
    else is asked for its [get] method. *)
Definition msg_get (msg : value) (key : string) (dflt : value)
  : M value :=
  match msg with
  | VDict d => ret (default dflt (d !! key))
  | _ => call W msg "get" [VStr key; dflt] ∅
  end.

(** One turn of the conversion loop: the message appended for [msg], or
    the exception of the message class that refuses its fields. *)
Definition convert_message (msg : value) : M message :=
  role <- msg_get msg "role" (VStr "") ;;
  if eq_str role "user" then
    content <- msg_get msg "content" (VStr "") ;;
    lift (new_HumanMessage content)
  else
    role <- msg_get msg "role" (VStr "") ;;
    if eq_str role "assistant" then
      content <- msg_get msg "content" (VStr "") ;;
      lift (new_AIMessage content)
    else
      role <- msg_get msg "role" (VStr "system") ;;
      content <- msg_get msg "content" (VStr "") ;;
      lift (new_ChatMessage role content).

(** The loop [for msg in mcp_prompt: ... messages.append(...)]. *)
Fixpoint convert_loop (messages : list message) (todo : list value)
  : M (list message) :=
  match todo with
  | [] => ret messages
  | msg :: todo =>
      m <- convert_message msg ;;
      convert_loop (messages ++ [m]) todo
  end.

(** The part shared by the two [get_langchain_prompt_*] methods, from
    "Convert to LangChain message" to the end. *)
Definition prompt_to_template (mcp_prompt : value)
           (include_messages_placeholder : bool) : M ChatPromptTemplate :=
  todo <- lift (iterate mcp_prompt) ;;
  messages <- convert_loop [] todo ;;
  (* Add history message placeholder *)
  if include_messages_placeholder then
    let placeholder := MessagesPlaceholder "chat_history" in
    let all_messages := messages ++ [placeholder] in
    ret (from_messages all_messages)
  else
    ret (from_messages messages).

(** The first half of [get_langchain_prompt_async], up to and including
    "Get MCP prompt". *)
Definition _mcp_prompt_async (target_server : option string) : M value :=
  _check_connection ;;
  c <- _client_or_raise ;;
  multi <- get _is_multi_client ;;
  if multi && named target_server then
    sub <- call W c "get_client" [VStr (default "" target_server)] ∅ ;;
    if truthy sub then call W sub "get_prompt" [] ∅ else ret (VList [])
  else
    (* Directly get prompt *)
    call W c "get_prompt" [] ∅.

Definition get_langchain_prompt_async (target_server : option string)
           (include_messages_placeholder : bool) : M ChatPromptTemplate :=
  mcp_prompt <- _mcp_prompt_async target_server ;;
  prompt_to_template mcp_prompt include_messages_placeholder.

(** The first half of [get_langchain_prompt_sync]. *)
Definition _mcp_prompt_sync (target_server : option string) : M value :=
  _check_connection ;;
  c <- _client_or_raise ;;
  multi <- get _is_multi_client ;;
  if multi && named target_server then
    call W c "get_prompt" [VStr (default "" target_server)] ∅
  else
    call W c "get_prompt" [] ∅.

Definition get_langchain_prompt_sync (target_server : option string)
           (include_messages_placeholder : bool) : M ChatPromptTemplate :=
  mcp_prompt <- _mcp_prompt_sync target_server ;;
  prompt_to_template mcp_prompt include_messages_placeholder.

(** *** The rest of the class *)

(** The dispatch shared by the methods that take an optional
    [target_server]: the target is appended to the positional arguments
    in multi-server mode when it is given and not empty.  The source
    writes the two calls out in every method. *)
Definition _call_with_target (c : value) (method : string)
           (args : list value) (target_server : option string) : M value :=
  multi <- get _is_multi_client ;;
  if multi && named target_server then
    call W c method (args ++ [VStr (default "" target_server)]) ∅
  else
    call W c method args ∅.

Definition list_tools_sync (target_server : option string) : M value :=
  _check_connection ;;
  c <- _client_or_raise ;;
  _call_with_target c "list_tools" [] target_server.

Definition get_tools (target_server : option string) : M value :=
  _check_connection ;;
  c <- _client_or_raise ;;
  _call_with_target c "get_tools" [] target_server.

Definition set_prompt (prompt_msgs : value) (target_server : option string)
  : M unit :=
  _check_connection ;;
  c <- _client_or_raise ;;
  _call_with_target c "set_prompt" [prompt_msgs] target_server ;;
  ret tt.

Definition get_prompt_sync (target_server : option string) : M value :=
  _check_connection ;;
  c <- _client_or_raise ;;
  _call_with_target c "get_prompt" [] target_server.

Definition get_prompt_by_target (target_server : option string) : M value :=
  _check_connection ;;
  c <- _client_or_raise ;;
  _call_with_target c "get_prompt" [] target_server.

Definition list_resources_internal (target_server : option string)
  : M value :=
  _check_connection ;;
  c <- _client_or_raise ;;
  _call_with_target c "list_resources" [] target_server.

Definition read_resource_internal (resource_id : string)
           (target_server : option string) : M value :=
  _check_connection ;;
  c <- _client_or_raise ;;
  _call_with_target c "read_resource" [VStr resource_id] target_server.

Definition list_prompts_internal (target_server : option string)
  : M value :=
  _check_connection ;;
  c <- _client_or_raise ;;
  _call_with_target c "list_prompts" [] target_server.

Definition add_resource (resource_id resource_content : string)
           (target_server : option string) : M unit :=
  _check_connection ;;
  c <- _client_or_raise ;;
  _call_with_target c "add_resource"
                    [VStr resource_id; VStr resource_content] target_server ;;
  ret tt.

Definition remove_resource (resource_id : string)
           (target_server : option string) : M unit :=
  _check_connection ;;
  c <- _client_or_raise ;;
  _call_with_target c "remove_resource" [VStr resource_id] target_server ;;
  ret tt.



Definition get_langchain_tools (server_name : string) : M value :=
  _check_connection ;;
  c <- _client_or_raise ;;
  (* Use adapter service to load tools *)
  new W "load_mcp_tools" [c] ∅.

Definition get_langchain_prompt (prompt_name : string)
           (arguments : option (gmap string value)) (server_name : string)
  : M (list value) :=
  _check_connection ;;
  _client_or_raise ;;
  (* Get prompt *)
  prompt_data <- get_prompt prompt_name arguments server_name ;;
  (* Convert to LangChain message *)
  message <- new W "convert_mcp_prompt_message_to_langchain_message"
                 [prompt_data] ∅ ;;
  ret [message].

Definition get_prompt_legacy (prompt_name : string)
           (arguments : option (gmap string value)) (server_name : string)
  : M value :=
  get_prompt prompt_name arguments server_name.
End Methods.

(** ** Public use of the service

    The operations a caller drives the service with, and the states they
    lead to from a freshly constructed service. *)

Inductive op :=
| OpCreate (url_or_configs : target) (transport_type : string)
           (command : option string) (args : option (list string))
           (output_stream : value)
| OpConnect
| OpDisconnect
| OpCallTool (server_name tool_name : string) (kwargs : gmap string value)
| OpListTools (include_server_prefix : bool)
| OpListResources (server_name : string)
| OpReadResource (resource_name server_name : string)
| OpListPrompts (server_name : string)
| OpGetPrompt (prompt_name : string) (arguments : option (gmap string value))
              (server_name : string).

(** Run one operation; the result value is dropped, the state is kept
    whether the operation returns or raises. *)
Definition run (W : world) (o : op) (s : state MCPClientService)
  : state MCPClientService :=
  match o with
  | OpCreate t tr c a os => (create W t tr c a os s).2
  | OpConnect => (connect W s).2
  | OpDisconnect => (disconnect W s).2
  | OpCallTool sn tn kw => (call_tool W sn tn kw s).2
  | OpListTools b => (list_tools W b s).2
  | OpListResources sn => (list_resources W sn s).2
  | OpReadResource rn sn => (read_resource W rn sn s).2
  | OpListPrompts sn => (list_prompts W sn s).2
  | OpGetPrompt pn a sn => (get_prompt W pn a sn s).2
  end.

(** The invariant of the service. *)
Definition has_handle_when_connected (s : state MCPClientService) : Prop :=
  _is_connected (self s) = true -> exists id, client (self s) = VObj id.

Inductive reachable (W : world) : state MCPClientService -> Prop :=
| reach_init verbose : reachable W (State (__init__ verbose) [])
| reach_step o s : reachable W s -> reachable W (run W o s).

(** What one call on object [c] amounts to: its outcome, and the state
    with the call appended to the trace. *)
Definition one_call (W : world) (s : state MCPClientService) (c : nat)
           (method : string) (args : list value) (kwargs : gmap string value)
  : outcome value * state MCPClientService :=
  (on_call W (log s) c method args kwargs,
   State (self s) (log s ++ [Call c method args kwargs])).

End ClientService.

(* ===================================================================== *)
(** * Concrete collaborators, used to run the services on examples       *)
(* ===================================================================== *)

Module Worlds.

(** The names of the interpreter's builtins namespace (CPython 3.12). *)
Definition builtin_names : list string :=
  [ "ArithmeticError"; "AssertionError"; "AttributeError"; "BaseException";
    "BaseExceptionGroup"; "BlockingIOError"; "BrokenPipeError";
    "BufferError"; "BytesWarning"; "ChildProcessError";
    "ConnectionAbortedError"; "ConnectionError"; "ConnectionRefusedError";
    "ConnectionResetError"; "DeprecationWarning"; "EOFError"; "Ellipsis";
    "EncodingWarning"; "EnvironmentError"; "Exception"; "ExceptionGroup";
    "False"; "FileExistsError"; "FileNotFoundError"; "FloatingPointError";
    "FutureWarning"; "GeneratorExit"; "IOError"; "ImportError";
    "ImportWarning"; "IndentationError"; "IndexError"; "InterruptedError";
    "IsADirectoryError"; "KeyError"; "KeyboardInterrupt"; "LookupError";
    "MemoryError"; "ModuleNotFoundError"; "NameError"; "None";
    "NotADirectoryError"; "NotImplemented"; "NotImplementedError";
    "OSError"; "OverflowError"; "PendingDeprecationWarning";
    "PermissionError"; "ProcessLookupError"; "RecursionError";
    "ReferenceError"; "ResourceWarning"; "RuntimeError"; "RuntimeWarning";
    "StopAsyncIteration"; "StopIteration"; "SyntaxError"; "SyntaxWarning";
    "SystemError"; "SystemExit"; "TabError"; "TimeoutError"; "True";
    "TypeError"; "UnboundLocalError"; "UnicodeDecodeError";
    "UnicodeEncodeError"; "UnicodeError"; "UnicodeTranslateError";
    "UnicodeWarning"; "UserWarning"; "ValueError"; "Warning";
    "ZeroDivisionError"; "__build_class__"; "__debug__"; "__doc__";
    "__import__"; "__loader__"; "__name__"; "__package__"; "__spec__";
    "abs"; "aiter"; "all"; "anext"; "any"; "ascii"; "bin"; "bool";
    "breakpoint"; "bytearray"; "bytes"; "callable"; "chr"; "classmethod";
    "compile"; "complex"; "copyright"; "credits"; "delattr"; "dict"; "dir";
    "divmod"; "enumerate"; "eval"; "exec"; "exit"; "filter"; "float";
    "format"; "frozenset"; "getattr"; "globals"; "hasattr"; "hash"; "help";
    "hex"; "id"; "input"; "int"; "isinstance"; "issubclass"; "iter"; "len";
    "license"; "list"; "locals"; "map"; "max"; "memoryview"; "min"; "next";
    "object"; "oct"; "open"; "ord"; "pow"; "print"; "property"; "quit";
    "range"; "repr"; "reversed"; "round"; "set"; "setattr"; "slice";
    "sorted"; "staticmethod"; "str"; "sum"; "super"; "tuple"; "type";
    "vars"; "zip" ].

Definition cpython_builtins : list (string * value) :=
  (fun n => (n, VBuiltin n)) <$> builtin_names.

(** Collaborators that accept everything: calls return [None], and a
    constructor returns a fresh object numbered by the length of the
    trace; all guarded imports succeeded. *)
Definition quiet : world :=
  {| on_call := fun _ _ _ _ _ => Return VNone;
     on_new := fun tr _ _ _ => Return (length tr);
     on_setattr := fun _ _ _ _ => Return tt;
     builtins_items := cpython_builtins;
     ClientSession_defined := true;
     StdioServerParameters_defined := true;
     stdio_client_defined := true |}.

(** As [quiet], but the method [failing] of every object raises
    [Exception(msg)]. *)
Definition raising (failing msg : string) : world :=
  {| on_call := fun _ _ m _ _ =>
       if String.eqb m failing
       then Raise (Exn (OtherException "Exception") msg None)
       else Return VNone;
     on_new := on_new quiet;
     on_setattr := on_setattr quiet;
     builtins_items := cpython_builtins;
     ClientSession_defined := true;
     StdioServerParameters_defined := true;
     stdio_client_defined := true |}.

(** As [quiet], but every constructor raises [Exception(msg)]. *)
Definition raising_new (msg : string) : world :=
  {| on_call := on_call quiet;
     on_new := fun _ _ _ _ => Raise (Exn (OtherException "Exception") msg None);
     on_setattr := on_setattr quiet;
     builtins_items := cpython_builtins;
     ClientSession_defined := true;
     StdioServerParameters_defined := true;
     stdio_client_defined := true |}.

(** As [quiet], but every object answers [get_prompt] with [prompt]. *)
Definition prompting (prompt : value) : world :=
  {| on_call := fun _ _ m _ _ =>
       if String.eqb m "get_prompt" then Return prompt else Return VNone;
     on_new := on_new quiet;
     on_setattr := on_setattr quiet;
     builtins_items := cpython_builtins;
     ClientSession_defined := true;
     StdioServerParameters_defined := true;
     stdio_client_defined := true |}.

(** A server service as the constructor leaves it, around handle 0, and
    the same service once started. *)
Definition fresh_server : ServerService.MCPServerService :=
  {| ServerService._is_running := false;
     ServerService._host := "localhost";
     ServerService._port := 8000;
     ServerService._server := VObj 0 |}.

Definition running_server : ServerService.MCPServerService :=
  ServerService.set_is_running true fresh_server.

(** A tool body that reads a file:
    [return open("/etc/passwd").read()] *)
Definition read_file_body : list stmt :=
  [ SReturn (ECall (EAttr (ECall (EName "open") [EStr "/etc/passwd"]) "read")
                   []) ].

(** A client service holding handle 0, as the tests set it up. *)
Definition connected_client (multi : bool) : ClientService.MCPClientService :=
  {| ClientService.client := VObj 0;
     ClientService._is_connected := true;
     ClientService._is_multi_client := multi;
     ClientService._verbose := false |}.

(** A prompt as a session returns it: four role-tagged dictionaries, the
    last one without a role. *)
Definition sample_prompt : list (gmap string value) :=
  [ {[ "role" := VStr "system"; "content" := VStr "You are helpful." ]};
    {[ "role" := VStr "user"; "content" := VStr "Hi" ]};
    {[ "role" := VStr "assistant"; "content" := VStr "Hello" ]};
    {[ "content" := VStr "untagged" ]} ].

End Worlds.

(* ===================================================================== *)
(** * The prompt conversion, as the specification words it               *)
(* ===================================================================== *)

Module PromptSpec.
Import ClientService.

(** One role-tagged mapping gives one message: role "user" a human
    message, role "assistant" an assistant message, any other role a
    generic message that carries the role, and a mapping without a role a
    generic message with role "system".  A missing content is the empty
    string. *)
Definition message_of (d : gmap string value) : message :=
  let content := default (VStr "") (d !! "content") in
  match d !! "role" with
  | Some role =>
      if eq_str role "user" then HumanMessage content
      else if eq_str role "assistant" then AIMessage content
      else ChatMessage role content
  | None => ChatMessage (VStr "system") content
  end.

(** A role-tagged message mapping: its role, when it has one, is a
    string, and so is its content. *)
Definition text_or_missing (field : option value) : bool :=
  match field with
  | None | Some (VStr _) => true
  | Some _ => false
  end.

Definition text_entry (d : gmap string value) : bool :=
  text_or_missing (d !! "role") && text_or_missing (d !! "content").

(** The messages of the template: one per mapping, in input order, then
    the history placeholder when it is asked for. *)
Definition template_messages (ds : list (gmap string value))
           (include_messages_placeholder : bool) : list message :=
  (message_of <$> ds)
  ++ (if include_messages_placeholder
      then [MessagesPlaceholder "chat_history"] else []).

End PromptSpec.

(* ===================================================================== *)
(** * tools/server_tools.py and tools/client_tools.py                    *)
(* ===================================================================== *)

(** The [_run] method of each tool class.  A tool holds its service in a
    field that may be [None]; [service_set] tells whether it holds one, and
    the method then runs on the state of that service.  The asynchronous
    entry points of the server service that the server tools call are the
    synchronous methods themselves. *)

Module ServerTools.
Import ServerService.

Section Run.
Context (W : world) (service_set : bool).

Definition service_not_set : exn :=
  Exn ValueError "Server service not set" None.

Definition ServerStartTool_run (host : string) (port : Z)
  : M MCPServerService string :=
  if negb service_set then raise service_not_set
  else start W host port.

Definition ServerStopTool_run : M MCPServerService string :=
  if negb service_set then raise service_not_set
  else stop W.

Definition ServerGetUrlTool_run : M MCPServerService value :=
  if negb service_set then raise service_not_set
  else get_url W.

Definition ServerAddToolTool_run (name description : string)
           (code : code_text) : M MCPServerService string :=
  if negb service_set then raise service_not_set
  else add_tool W name description code.

Definition ServerAddResourceTool_run (name : string) (content : value)
           (description : string) : M MCPServerService string :=
  if negb service_set then raise service_not_set
  else add_resource W name content description.

Definition ServerAddPromptTool_run (name content : string)
  : M MCPServerService string :=
  if negb service_set then raise service_not_set
  else add_prompt W name content "".
End Run.

End ServerTools.

Module ClientTools.
Import ClientService.

(** The parameter names of [MCPClientService.call_tool].  A keyword
    argument with one of these names cannot be passed along with the two
    positional arguments: the call itself raises a [TypeError]. *)
Definition call_tool_parameters : list string :=
  ["self"; "server_name"; "tool_name"].

Definition clashes (arguments : gmap string value) : bool :=
  existsb (fun k => bool_decide (is_Some (arguments !! k)))
          call_tool_parameters.

Section Run.
Context (W : world) (service_set : bool).

Definition service_not_set : exn :=
  Exn ValueError "Client service not set" None.

(** [call_tool(server_name, tool_name, **arguments)] *)
Definition ClientCallToolTool_run (server_name tool_name : string)
           (arguments : gmap string value) : M MCPClientService value :=
  if negb service_set then raise service_not_set
  else if clashes arguments then
    raise (Exn TypeError "call_tool() got multiple values for argument" None)
  else call_tool W server_name tool_name arguments.

Definition ClientListToolsTool_run (include_server_prefix : bool)
  : M MCPClientService value :=
  if negb service_set then raise service_not_set
  else
    tools <- list_tools W include_server_prefix ;;
    ret tools.

(** [read_resource(server_name, resource_name)]: the two strings are
    passed by position, the server name first. *)
Definition ClientReadResourceTool_run (resource_name server_name : string)
  : M MCPClientService value :=
  if negb service_set then raise service_not_set
  else read_resource W server_name resource_name.

Definition ClientListPromptsTool_run (server_name : string)
  : M MCPClientService value :=
  if negb service_set then raise service_not_set
  else list_prompts W server_name.

Definition ClientGetPromptTool_run (server_name prompt_name : string)
  : M MCPClientService value :=
  if negb service_set then raise service_not_set
  else
    let arguments : gmap string value := ∅ in
    get_prompt W prompt_name (Some arguments) server_name.

Definition GetLangChainToolsTool_run : M MCPClientService value :=
  if negb service_set then raise service_not_set
  else get_langchain_tools W "default".

Definition GetLangChainPromptTool_run (server_name prompt_name : string)
           (arguments : option (gmap string value))
  : M MCPClientService (list value) :=
  if negb service_set then raise service_not_set
  else
    let args := dict_or arguments ∅ in
    get_langchain_prompt W prompt_name (Some args) server_name.
End Run.

End ClientTools.

(* ===================================================================== *)
(** * factory.py and toolkit.py                                          *)
(* ===================================================================== *)

Module ToolFactory.

(** The tool classes.  A tool made by a factory is bound to the service
    of that factory; what tells tools apart is their class. *)
Inductive tool :=
| ClientCreateTool | ClientCallToolTool | ClientListToolsTool
| ClientListResourcesTool | ClientReadResourceTool | ClientListPromptsTool
| ClientGetPromptTool | GetLangChainToolsTool | GetLangChainPromptTool
| ServerStartTool | ServerStopTool | ServerGetUrlTool
| ServerAddToolTool | ServerAddResourceTool | ServerAddPromptTool.

(** The [name] attribute of each class. *)
Definition name (t : tool) : string :=
  match t with
  | ClientCreateTool => "client_create"
  | ClientCallToolTool => "client_call_tool"
  | ClientListToolsTool => "client_list_tools"
  | ClientListResourcesTool => "client_list_resources"
  | ClientReadResourceTool => "client_read_resource"
  | ClientListPromptsTool => "client_list_prompts"
  | ClientGetPromptTool => "client_get_prompt"
  | GetLangChainToolsTool => "get_langchain_tools"
  | GetLangChainPromptTool => "get_langchain_prompt"
  | ServerStartTool => "server_start"
  | ServerStopTool => "server_stop"
  | ServerGetUrlTool => "server_get_url"
  | ServerAddToolTool => "server_add_tool"
  | ServerAddResourceTool => "server_add_resource"
  | ServerAddPromptTool => "server_add_prompt"
  end.

Record MCPToolFactory := {
  _client_service : option ClientService.MCPClientService;
  _server_service : option ServerService.MCPServerService;
}.

Definition __init__ : MCPToolFactory :=
  {| _client_service := None; _server_service := None |}.

Definition set_client_service (c : option ClientService.MCPClientService)
           (f : MCPToolFactory) :=
  {| _client_service := c; _server_service := _server_service f |}.
Definition set_server_service (c : option ServerService.MCPServerService)
           (f : MCPToolFactory) :=
  {| _client_service := _client_service f; _server_service := c |}.

Section Methods.
Context (W : world).

Definition init_client_service
  : M MCPToolFactory ClientService.MCPClientService :=
  let client_service := ClientService.__init__ false in
  modify (set_client_service (Some client_service)) ;;
  ret client_service.

(** [MCPServerService()]: the constructor runs on the blank object and
    talks to the collaborators; the factory is untouched when it raises. *)
Definition new_server_service
  : M MCPToolFactory ServerService.MCPServerService :=
  fun f =>
    match ServerService.__init__ W None (State ServerService.blank (log f)) with
    | (Return _, s) => (Return (self s), State (self f) (log s))
    | (Raise e, s) => (Raise e, State (self f) (log s))
    end.

Definition init_server_service
  : M MCPToolFactory ServerService.MCPServerService :=
  server_service <- new_server_service ;;
  modify (set_server_service (Some server_service)) ;;
  ret server_service.

Definition create_client_tools (f : MCPToolFactory) : outcome (list tool) :=
  match _client_service f with
  | None =>
      Raise (Exn ValueError
        "Client service not initialized, please call init_client_service first"
        None)
  | Some _ =>
      Return [ ClientCreateTool; ClientCallToolTool; ClientListToolsTool;
               ClientListResourcesTool; ClientReadResourceTool;
               ClientListPromptsTool; ClientGetPromptTool;
               GetLangChainToolsTool; GetLangChainPromptTool ]
  end.

Definition create_server_tools (f : MCPToolFactory) : outcome (list tool) :=
  match _server_service f with
  | None =>
      Raise (Exn ValueError
        "Server service not initialized, please call init_server_service first"
        None)
  | Some _ =>
      Return [ ServerStartTool; ServerStopTool; ServerGetUrlTool;
               ServerAddToolTool; ServerAddResourceTool; ServerAddPromptTool ]
  end.

(** [tools.extend(...)] under an outcome: an exception of the call that
    computes the extension is raised, otherwise the list grows. *)
Definition extend (tools : list tool) (more : outcome (list tool))
  : outcome (list tool) :=
  match more with
  | Return l => Return (tools ++ l)
  | Raise e => Raise e
  end.

Definition create_all_tools (f : MCPToolFactory) : outcome (list tool) :=
  let tools : list tool := [] in
  match (match _client_service f with
         | Some _ => extend tools (create_client_tools f)
         | None => Return tools
         end) with
  | Raise e => Raise e
  | Return tools =>
      match _server_service f with
      | Some _ => extend tools (create_server_tools f)
      | None => Return tools
      end
  end.

(** The loop of [get_tools_by_names]. *)
Fixpoint pick (all_tools : list tool) (names : list string)
         (result : list tool) : list tool :=
  match names with
  | [] => result
  | n :: names =>
      let matching_tools :=
        filter (fun t => name t = n) all_tools in
      match matching_tools with
      | t :: _ => pick all_tools names (result ++ [t])
      | [] => pick all_tools names result
      end
  end.

Definition get_tools_by_names (f : MCPToolFactory) (names : list string)
  : outcome (list tool) :=
  match create_all_tools f with
  | Raise e => Raise e
  | Return all_tools => Return (pick all_tools names [])
  end.
End Methods.

(** ** toolkit.py *)

Inductive mode := client | server | client_and_server.

Definition mode_str (m : mode) : string :=
  match m with
  | client => "client"
  | server => "server"
  | client_and_server => "client_and_server"
  end.

Record MCPToolkit := { toolkit_mode : mode; factory : MCPToolFactory }.

Definition set_factory (f : MCPToolFactory) (t : MCPToolkit) :=
  {| toolkit_mode := toolkit_mode t; factory := f |}.

Definition supports_client (m : mode) : bool :=
  match m with client | client_and_server => true | server => false end.
Definition supports_server (m : mode) : bool :=
  match m with server | client_and_server => true | client => false end.

Section Toolkit.
Context (W : world).

(** A method of the factory, run on the factory held by the toolkit. *)
Definition on_factory {A} (m : M MCPToolFactory A) : M MCPToolkit A :=
  fun t =>
    let '(r, f) := m (State (factory (self t)) (log t)) in
    (r, State (set_factory (self f) (self t)) (log f)).

(** [MCPToolkit(mode=...)], run on the toolkit with its default factory. *)
Definition new_toolkit (m : mode) : MCPToolkit :=
  {| toolkit_mode := m; factory := __init__ |}.

Definition toolkit_init : M MCPToolkit unit :=
  m <- get toolkit_mode ;;
  (if supports_client m then on_factory init_client_service ;; ret tt
   else ret tt) ;;
  (if supports_server m then on_factory (init_server_service W) ;; ret tt
   else ret tt).

Definition get_tools (t : MCPToolkit) : outcome (list tool) :=
  match toolkit_mode t with
  | client => create_client_tools (factory t)
  | server => create_server_tools (factory t)
  | client_and_server => create_all_tools (factory t)
  end.

Definition get_client_service
  : M MCPToolkit ClientService.MCPClientService :=
  m <- get toolkit_mode ;;
  if negb (supports_client m) then
    raise (Exn ValueError ("Current mode '" +:+ mode_str m
                           +:+ "' does not support client services") None)
  else
    f <- get factory ;;
    match _client_service f with
    | Some c => ret c
    | None => on_factory init_client_service
    end.

Definition get_server_service
  : M MCPToolkit ServerService.MCPServerService :=
  m <- get toolkit_mode ;;
  if negb (supports_server m) then
    raise (Exn ValueError ("Current mode '" +:+ mode_str m
                           +:+ "' does not support server services") None)
  else
    f <- get factory ;;
    match _server_service f with
    | Some c => ret c
    | None => on_factory (init_server_service W)
    end.

Definition toolkit_get_tools_by_names (t : MCPToolkit) (names : list string)
  : outcome (list tool) :=
  get_tools_by_names (factory t) names.
End Toolkit.

(** The two families of tools, in the order in which they are created. *)
Definition client_tools : list tool :=
  [ ClientCreateTool; ClientCallToolTool; ClientListToolsTool;
    ClientListResourcesTool; ClientReadResourceTool; ClientListPromptsTool;
    ClientGetPromptTool; GetLangChainToolsTool; GetLangChainPromptTool ].

Definition server_tools : list tool :=
  [ ServerStartTool; ServerStopTool; ServerGetUrlTool; ServerAddToolTool;
    ServerAddResourceTool; ServerAddPromptTool ].


(** The tools a factory can make: those of the services it holds. *)
Definition available (f : MCPToolFactory) : list tool :=
  (match _client_service f with Some _ => client_tools | None => [] end)
  ++ (match _server_service f with Some _ => server_tools | None => [] end).

End ToolFactory.

(* ===================================================================== *)
(** * More collaborators                                                 *)
(* ===================================================================== *)

Module Scenarios.
Import Worlds.

(** Collaborators whose methods and attribute assignments never raise. *)
Definition obliging (W : world) : Prop :=
  (forall tr id m args kw, exists v, on_call W tr id m args kw = Return v) /\
  (forall tr id a v, on_setattr W tr id a v = Return tt).

(** As [quiet], but every object answers [method] with [answer]. *)
Definition answering (method : string) (answer : value) : world :=
  {| on_call := fun _ _ m _ _ =>
       if String.eqb m method then Return answer else Return VNone;
     on_new := on_new quiet;
     on_setattr := on_setattr quiet;
     builtins_items := cpython_builtins;
     ClientSession_defined := true;
     StdioServerParameters_defined := true;
     stdio_client_defined := true |}.

(** A running service that stores another address than the default. *)
Definition running_elsewhere : ServerService.MCPServerService :=
  {| ServerService._is_running := true;
     ServerService._host := "0.0.0.0";
     ServerService._port := 9000;
     ServerService._server := VObj 0 |}.

(** A client service that was created and then disconnected. *)
Definition disconnected_client : ClientService.MCPClientService :=
  ClientService.set_is_connected false (connected_client false).

End Scenarios.

(* ===================================================================== *)
(** * Properties of the server control surface                           *)
(* ===================================================================== *)

Section ServerFacts.
Import ServerService.
Context (W : world).
Implicit Types (s : state MCPServerService) (name host : string) (port : Z).

Lemma contains_intro pre needle post : contains needle (pre +:+ needle +:+ post).
Proof. by exists pre, post. Qed.

Lemma append_empty_r (x : string) : x +:+ "" = x.
Proof.
  induction x as [|a x IH]; [done|].
  change (String a (x +:+ "") = String a x). by rewrite IH.
Qed.

Lemma contains_suffix pre needle : contains needle (pre +:+ needle).
Proof. exists pre, "". by rewrite append_empty_r. Qed.

Lemma contains_not_running : contains "not currently running" not_running_error.
Proof.
  by exists "Error: Server is ", ", please start the server first".
Qed.

(** Unfolding of the monadic combinators, for symbolic execution of a
    method on a state whose fields are known from hypotheses. *)
Ltac step_server :=
  unfold start, stop, add_tool, add_resource, add_prompt, wrap,
    bind, get, ret, raise, try_except, modify, lift, call, setattr; simpl.

(** The safe namespace never holds a name the allow-list lacks; in
    particular [exec] always has to add [__builtins__] itself. *)
Lemma safe_namespace_lookup x :
  x ∉ allow_list -> safe_namespace W !! x = None.
Proof.
  intros Hx. unfold safe_namespace.
  assert (x ≠ "json" /\ x ≠ "requests" /\ x ∉ safe_builtins) as (?&?&Hsafe).
  { unfold allow_list in Hx. rewrite elem_of_app in Hx.
    split_and!; [intros ->; apply Hx; right ..|intros ?; apply Hx; by left];
      by apply (bool_decide_unpack _). }
  rewrite !lookup_insert_ne by done.
  generalize (builtins_items W).
  assert (forall l (sb : gmap string value), sb !! x = None ->
    foldl (fun sb '(k, v) =>
             if bool_decide (k ∈ safe_builtins) then <[k := v]> sb else sb)
          sb l !! x = None) as Hfold.
  { induction l as [|[k v] l IH]; intros sb Hsb; simpl; [done|].
    apply IH. case_bool_decide; [|done].
    rewrite lookup_insert_ne; [done|]. by intros ->. }
  intros l. by apply Hfold.
Qed.

Lemma builtins_key_not_allowed : "__builtins__" ∉ allow_list.
Proof. by apply (bool_decide_eq_false_1 _). Qed.

(** Compiling a block never fails and never looks at the names the block
    uses: the result is the function object itself. *)
Lemma compile_block name body s :
  _compile_tool_code W name (Block body) s
  = (Return (VFunction name "kwargs" body (tool_globals W)), s).
Proof.
  unfold _compile_tool_code, bind, lift, exec, full_code; simpl.
  rewrite (safe_namespace_lookup "__builtins__" builtins_key_not_allowed).
  simpl. by rewrite lookup_insert_eq.
Qed.

Lemma compile_malformed name msg s :
  _compile_tool_code W name (Malformed msg) s
  = (Raise (Exn SyntaxError msg None), s).
Proof. reflexivity. Qed.

(** ** Registration of tools *)

(** C1, as amended.  On a running server, for a tool name that is an
    identifier, [add_tool] fails exactly when the
    compiler rejects the code (the [SyntaxError] is wrapped in a
    [RuntimeError]) or when the handle's own [add_tool] raises (wrapped
    likewise).  A body that is a well-formed block is compiled to a
    function object and handed to the handle whatever names it refers to:
    names are looked up when the tool is invoked, not when it is
    registered.  If the handle accepts it, the confirmation string is
    returned. *)
Theorem add_tool_fails_only_on_syntax_or_handle name description code s h :
  is_identifier name = true ->
  _is_running (self s) = true ->
  _server (self s) = VObj h ->
  add_tool W name description code s =
  match code with
  | Malformed msg =>
      (Raise (Exn RuntimeError ("Failed to add tool: " +:+ msg)
                  (Some (Exn SyntaxError msg None))), s)
  | Block body =>
      let args := [VStr name;
                   VFunction name "kwargs" body (tool_globals W);
                   VStr description] in
      (match on_call W (log s) h "add_tool" args ∅ with
       | Return _ => Return ("Tool '" +:+ name +:+ "' added to server")
       | Raise e =>
           Raise (Exn RuntimeError ("Failed to add tool: " +:+ exn_str e)
                      (Some e))
       end,
       State (self s) (log s ++ [Call h "add_tool" args ∅]))
  end.
Proof.
  intros _ Hrun Hsrv. unfold add_tool, bind at 1, get at 1. simpl. rewrite Hrun.
  simpl. unfold try_except, bind at 1. destruct code as [msg|body].
  - rewrite compile_malformed. simpl. by destruct s.
  - rewrite compile_block. step_server. rewrite Hsrv.
    by destruct (on_call W _ h _ _ _).
Qed.

(** ** Lifecycle *)

(** C4, as amended.  When the server is not running and the handle's
    start primitive raises, [start] raises a [RuntimeError] that carries
    the cause and its message, and the running flag stays false; the stored
    host and port are those of the failed call, since they are assigned
    before the primitive is invoked. *)
Theorem start_failure_keeps_flag_not_address host port s h e :
  _is_running (self s) = false ->
  _server (self s) = VObj h ->
  on_setattr W (log s) h "name" (VStr "mcp-server") = Return tt ->
  on_call W (log s ++ [SetAttr h "name" (VStr "mcp-server")]) h "start" []
          {[ "host" := VStr host; "port" := VInt port ]} = Raise e ->
  start W host port s =
  (Raise (Exn RuntimeError ("Failed to start server: " +:+ exn_str e)
              (Some e)),
   State {| _is_running := false; _host := host; _port := port;
            _server := VObj h |}
         (log s ++ [SetAttr h "name" (VStr "mcp-server");
                    Call h "start" []
                         {[ "host" := VStr host; "port" := VInt port ]}])).
Proof.
  intros Hrun Hsrv Hname Hstart. step_server.
  rewrite Hrun, Hsrv. simpl. rewrite Hname, Hstart. simpl.
  unfold set_port, set_host. simpl. by rewrite Hrun, Hsrv, <- (assoc_L (++)).
Qed.

(** C7.  While the server is running, [start] with any arguments returns
    the message that carries the URL made of the stored host and port, and
    changes nothing: the service state is the same and the trace has no new
    entry, so the handle's start primitive is not invoked. *)
Theorem start_idempotent_while_running h2 p2 s :
  _is_running (self s) = true ->
  start W h2 p2 s =
    (Return ("Server is already running: http://" +:+ _host (self s)
             +:+ ":" +:+ pretty (_port (self s))), s) /\
  contains ("http://" +:+ _host (self s) +:+ ":" +:+ pretty (_port (self s)))
           ("Server is already running: http://" +:+ _host (self s)
            +:+ ":" +:+ pretty (_port (self s))).
Proof.
  intros Hrun. split.
  - step_server. by rewrite Hrun.
  - apply (contains_suffix "Server is already running: ").
Qed.

(** ** Mutations require a running server *)

(** C6.  On a server that is not running, [add_resource], [add_tool] and
    [add_prompt] return the error string, which contains "not currently
    running", and leave the service state and the trace as they were: no
    call reaches the handle.  On a running server whose handle accepts the
    resource, [add_resource] returns a confirmation that contains the
    resource name. *)
Theorem mutations_require_running
        name content description code prompt s s' h r :
  _is_running (self s) = false ->
  _is_running (self s') = true ->
  _server (self s') = VObj h ->
  on_call W (log s') h "add_resource" [VStr name; content] ∅ = Return r ->
  (add_resource W name content description s = (Return not_running_error, s)
   /\ add_tool W name description code s = (Return not_running_error, s)
   /\ add_prompt W name prompt description s = (Return not_running_error, s)
   /\ contains "not currently running" not_running_error)
  /\
  (add_resource W name content description s'
   = (Return ("Resource '" +:+ name +:+ "' added to server"),
      State (self s')
            (log s' ++ [Call h "add_resource" [VStr name; content] ∅]))
   /\ contains name ("Resource '" +:+ name +:+ "' added to server")).
Proof.
  intros Hstopped Hrun Hsrv Hadd. split; [split_and!|split].
  - step_server. by rewrite Hstopped.
  - step_server. by rewrite Hstopped.
  - step_server. by rewrite Hstopped.
  - apply contains_not_running.
  - step_server. rewrite Hrun. simpl. rewrite Hsrv. by rewrite Hadd.
  - apply contains_intro.
Qed.

End ServerFacts.

(** ** The server on concrete collaborators *)

Section ServerExamples.
Import ServerService Worlds.

(** C1 fails as stated.  The body [return open("/etc/passwd").read()]
    refers to [open], which is outside the allow-list and absent from the
    globals of the compiled tool; still, on a running server, [add_tool]
    returns the confirmation string and hands the function to the handle. *)
Lemma add_tool_accepts_body_using_open :
  is_identifier "read_file" = true /\
  ("open" ∈ global_names "kwargs" read_file_body) /\
  ("open" ∉ allow_list) /\
  (tool_globals quiet !! "open" = None) /\
  add_tool quiet "read_file" "Read a file" (Block read_file_body)
           (State running_server [])
  = (Return "Tool 'read_file' added to server",
     State running_server
           [Call 0 "add_tool"
                 [VStr "read_file";
                  VFunction "read_file" "kwargs" read_file_body
                            (tool_globals quiet);
                  VStr "Read a file"] ∅]).
Proof.
  split_and!.
  - done.
  - by apply (bool_decide_unpack _).
  - by apply (bool_decide_eq_false_1 _).
  - by vm_compute.
  - reflexivity.
Qed.

(** The three outcomes of [add_tool] on a running server: rejected
    code, a handle that refuses, and a registration that goes through. *)
Lemma add_tool_fails_only_on_syntax_or_handle_witness :
  (add_tool quiet "greet" "Return greeting" (Malformed "invalid syntax")
            (State running_server [])).1
  = Raise (Exn RuntimeError "Failed to add tool: invalid syntax"
               (Some (Exn SyntaxError "invalid syntax" None))) /\
  (add_tool (raising "add_tool" "Add tool failed") "greet" "Return greeting"
            (Block [SReturn (EStr "Hello")]) (State running_server [])).1
  = Raise (Exn RuntimeError "Failed to add tool: Add tool failed"
               (Some (Exn (OtherException "Exception") "Add tool failed"
                          None))) /\
  (add_tool quiet "greet" "Return greeting"
            (Block [SReturn (EStr "Hello")]) (State running_server [])).1
  = Return "Tool 'greet' added to server".
Proof.
  split_and!.
  - by rewrite (add_tool_fails_only_on_syntax_or_handle quiet _ _ _ _ 0).
  - by rewrite (add_tool_fails_only_on_syntax_or_handle
                  (raising "add_tool" "Add tool failed") _ _ _ _ 0).
  - by rewrite (add_tool_fails_only_on_syntax_or_handle quiet _ _ _ _ 0).
Defined.

(** C4 fails as stated.  A stopped service stores localhost:8000; the
    handle's start primitive raises; after [start("0.0.0.0", 9000)] has
    raised its [RuntimeError] the service stores 0.0.0.0:9000. *)
Lemma start_failure_overwrites_address :
  _is_running fresh_server = false /\
  _host fresh_server = "localhost" /\
  _port fresh_server = 8000 /\
  (start (raising "start" "Start failed") "0.0.0.0" 9000
         (State fresh_server [])).1
  = Raise (Exn RuntimeError "Failed to start server: Start failed"
               (Some (Exn (OtherException "Exception") "Start failed" None)))
  /\
  _host (self (start (raising "start" "Start failed") "0.0.0.0" 9000
                     (State fresh_server [])).2) = "0.0.0.0" /\
  _port (self (start (raising "start" "Start failed") "0.0.0.0" 9000
                     (State fresh_server [])).2) = 9000.
Proof. by split_and!. Qed.

(** The failed start above, with the state and the trace it leaves. *)
Lemma start_failure_keeps_flag_not_address_witness :
  start (raising "start" "Start failed") "0.0.0.0" 9000
        (State fresh_server [])
  = (Raise (Exn RuntimeError "Failed to start server: Start failed"
                (Some (Exn (OtherException "Exception") "Start failed" None))),
     State {| _is_running := false; _host := "0.0.0.0"; _port := 9000;
              _server := VObj 0 |}
           [SetAttr 0 "name" (VStr "mcp-server");
            Call 0 "start" []
                 {[ "host" := VStr "0.0.0.0"; "port" := VInt 9000 ]}]).
Proof.
  by apply (start_failure_keeps_flag_not_address
              (raising "start" "Start failed") "0.0.0.0" 9000
              (State fresh_server []) 0
              (Exn (OtherException "Exception") "Start failed" None)).
Defined.

(** A second [start] on the running service, with other arguments. *)
Lemma start_idempotent_while_running_witness :
  start quiet "0.0.0.0" 9000 (State running_server [])
  = (Return "Server is already running: http://localhost:8000",
     State running_server []) /\
  contains "http://localhost:8000"
           "Server is already running: http://localhost:8000".
Proof.
  by apply (start_idempotent_while_running quiet "0.0.0.0" 9000
              (State running_server [])).
Defined.

(** [add_resource("cities", ["A", "B"])] on the stopped and on the running
    service. *)
Lemma mutations_require_running_witness :
  add_resource quiet "cities" (VList [VStr "A"; VStr "B"]) ""
               (State fresh_server [])
  = (Return not_running_error, State fresh_server []) /\
  (add_resource quiet "cities" (VList [VStr "A"; VStr "B"]) ""
                (State running_server [])).1
  = Return "Resource 'cities' added to server" /\
  contains "cities" "Resource 'cities' added to server".
Proof.
  destruct (mutations_require_running quiet
              "cities" (VList [VStr "A"; VStr "B"]) ""
              (Block [SPass]) "Hello, {name}!"
              (State fresh_server []) (State running_server []) 0 VNone)
    as [(Hstopped & _) (Hrunning & Hname)]; [done..|].
  split_and!; [done| by rewrite Hrunning | done].
Defined.

(** Replays of the unit tests of the repository. *)

Example test_start :
  start quiet "localhost" 8000 (State fresh_server [])
  = (Return "Server started at http://localhost:8000",
     State running_server
           [SetAttr 0 "name" (VStr "mcp-server");
            Call 0 "start" []
                 {[ "host" := VStr "localhost"; "port" := VInt 8000 ]}]).
Proof. reflexivity. Qed.

Example test_stop :
  stop quiet (State running_server [])
  = (Return "Server stopped", State fresh_server [Call 0 "stop" [] ∅]).
Proof. reflexivity. Qed.

Example test_stop_not_running :
  stop quiet (State fresh_server [])
  = (Return "Server is not currently running", State fresh_server []).
Proof. reflexivity. Qed.

Example test_add_prompt_exception :
  (add_prompt (raising "add_prompt" "Add prompt failed")
              "test_prompt" "Test prompt content" ""
              (State running_server [])).1
  = Raise (Exn RuntimeError "Failed to add prompt: Add prompt failed"
               (Some (Exn (OtherException "Exception") "Add prompt failed"
                          None))).
Proof. reflexivity. Qed.

Example identifiers :
  is_identifier "get_weather" = true /\ is_identifier "class" = false /\
  is_identifier "2fast" = false /\ is_identifier "a b" = false /\
  is_identifier "" = false.
Proof. by split_and!. Qed.

End ServerExamples.

(* ===================================================================== *)
(** * Properties of the client dispatch core                             *)
(* ===================================================================== *)

Section ClientFacts.
Import ClientService PromptSpec.
Context (W : world).
Implicit Types (s : state MCPClientService).

Ltac step_client :=
  unfold call_tool, list_tools, list_resources, read_resource, list_prompts,
    get_prompt, connect, disconnect, _check_connection, _client_or_raise,
    bind, get, ret, raise, try_except, modify, lift, call; simpl.

(** ** The two guards *)

(** The guards that open every dispatch method, followed by the rest of
    the method [k]: the connection flag is looked at first, the handle
    second. *)
Lemma guards_run {A} (k : value -> M MCPClientService A) s :
  (_check_connection ;; c <- _client_or_raise ;; k c) s =
  if _is_connected (self s) then
    match client (self s) with
    | VNone => (Raise not_created, s)
    | c => k c s
    end
  else (Raise not_connected, s).
Proof.
  step_client. destruct (_is_connected (self s)); simpl; [|done].
  by destruct (client (self s)).
Qed.

(** C5, as amended.  Every dispatch method checks the connection flag
    first and the existence of the handle second, independently: with the
    flag unset it raises "Client service not connected" whatever the
    handle is, in particular on a freshly constructed service; with the
    flag set and no handle it raises "Client not created".  In both cases
    nothing else happens. *)
Theorem connection_checked_before_creation
        sn tn kw prefix rn pn args s :
  (_is_connected (self s) = false ->
     call_tool W sn tn kw s = (Raise not_connected, s) /\
     list_tools W prefix s = (Raise not_connected, s) /\
     list_resources W sn s = (Raise not_connected, s) /\
     read_resource W rn sn s = (Raise not_connected, s) /\
     list_prompts W sn s = (Raise not_connected, s) /\
     get_prompt W pn args sn s = (Raise not_connected, s)) /\
  (_is_connected (self s) = true -> client (self s) = VNone ->
     call_tool W sn tn kw s = (Raise not_created, s) /\
     list_tools W prefix s = (Raise not_created, s) /\
     list_resources W sn s = (Raise not_created, s) /\
     read_resource W rn sn s = (Raise not_created, s) /\
     list_prompts W sn s = (Raise not_created, s) /\
     get_prompt W pn args sn s = (Raise not_created, s)).
Proof.
  split.
  - intros Hflag. split_and!; step_client; by rewrite Hflag.
  - intros Hflag Hnone. split_and!; step_client; rewrite Hflag; simpl;
      by rewrite Hnone.
Qed.

(** ** Dispatch *)

(** C2.  On a connected service with a handle, [call_tool] makes exactly
    one call on the handle and returns its outcome as it is.  In
    multi-endpoint mode the call has three positional arguments, the
    server name, the tool name and the keyword arguments as one dictionary;
    in single-endpoint mode it has the tool name as only positional
    argument and the keyword arguments passed as keywords, and the server
    name plays no part. *)
Theorem call_tool_shapes sn tn kw s c :
  _is_connected (self s) = true ->
  client (self s) = VObj c ->
  call_tool W sn tn kw s =
  if _is_multi_client (self s) then
    (on_call W (log s) c "call_tool" [VStr sn; VStr tn; VDict kw] ∅,
     State (self s)
           (log s ++ [Call c "call_tool" [VStr sn; VStr tn; VDict kw] ∅]))
  else
    (on_call W (log s) c "call_tool" [VStr tn] kw,
     State (self s) (log s ++ [Call c "call_tool" [VStr tn] kw])).
Proof.
  intros Hflag Hc. step_client. rewrite Hflag. simpl. rewrite Hc. simpl.
  by destruct (_is_multi_client (self s)).
Qed.

(** C3.  In multi-endpoint mode, when the router's [get_client] returns
    a falsy value for the server name, [list_resources] and [list_prompts]
    return the empty list and [read_resource] and [get_prompt] the empty
    dictionary; the only interaction is the [get_client] call.
    [call_tool] does not resolve the name: its only interaction is the
    router's [call_tool], whose outcome it returns as it is, so an
    exception raised by the router reaches the caller unwrapped. *)
Theorem unknown_server_soft_miss sn rn pn args tn kw s c v :
  _is_connected (self s) = true ->
  client (self s) = VObj c ->
  _is_multi_client (self s) = true ->
  on_call W (log s) c "get_client" [VStr sn] ∅ = Return v ->
  truthy v = false ->
  (list_resources W sn s
   = (Return (VList []),
      State (self s) (log s ++ [Call c "get_client" [VStr sn] ∅])) /\
   list_prompts W sn s
   = (Return (VList []),
      State (self s) (log s ++ [Call c "get_client" [VStr sn] ∅])) /\
   read_resource W rn sn s
   = (Return (VDict ∅),
      State (self s) (log s ++ [Call c "get_client" [VStr sn] ∅])) /\
   get_prompt W pn args sn s
   = (Return (VDict ∅),
      State (self s) (log s ++ [Call c "get_client" [VStr sn] ∅]))) /\
  (call_tool W sn tn kw s
   = (on_call W (log s) c "call_tool" [VStr sn; VStr tn; VDict kw] ∅,
      State (self s)
            (log s ++ [Call c "call_tool" [VStr sn; VStr tn; VDict kw] ∅])) /\
   forall e,
     on_call W (log s) c "call_tool" [VStr sn; VStr tn; VDict kw] ∅ = Raise e ->
     (call_tool W sn tn kw s).1 = Raise e).
Proof.
  intros Hflag Hc Hmulti Hget Hfalsy.
  assert (call_tool W sn tn kw s
          = (on_call W (log s) c "call_tool" [VStr sn; VStr tn; VDict kw] ∅,
             State (self s)
               (log s ++ [Call c "call_tool" [VStr sn; VStr tn; VDict kw] ∅])))
    as Hcall.
  { step_client. rewrite Hflag. simpl. rewrite Hc. simpl. by rewrite Hmulti. }
  split; [split_and!|split].
  1-4: step_client; rewrite Hflag; simpl; rewrite Hc; simpl;
       rewrite Hmulti, Hget; simpl; by rewrite Hfalsy.
  - done.
  - intros e He. by rewrite Hcall, He.
Qed.

(** ** Conversion of prompts *)

Lemma convert_message_dict d s :
  text_entry d = true ->
  convert_message W (VDict d) s = (Return (message_of d), s).
Proof.
  unfold text_entry, convert_message, message_of, msg_get, bind, ret, lift.
  destruct (d !! "role") as [[]|]; try done;
    destruct (d !! "content") as [[]|]; try done; intros _; simpl;
    repeat case_match; done.
Qed.

(** A message class that refuses a field stops the loop: the exception
    of the constructor leaves [convert_message]. *)
Lemma convert_message_refused d s :
  d !! "role" = Some (VStr "user") ->
  content_ok (default (VStr "") (d !! "content")) = false ->
  convert_message W (VDict d) s
  = (Raise (validation_error "HumanMessage"), s).
Proof.
  intros Hrole Hcontent.
  unfold convert_message, msg_get, bind, ret, lift, new_HumanMessage.
  rewrite Hrole. simpl. by rewrite Hcontent.
Qed.

Lemma convert_loop_dicts ds : forall messages s,
  Forall (fun d => text_entry d = true) ds ->
  convert_loop W messages (VDict <$> ds) s
  = (Return (messages ++ (message_of <$> ds)), s).
Proof.
  induction ds as [|d ds IH]; intros messages s Hds; simpl.
  - by rewrite (right_id_L [] (++)).
  - apply Forall_cons in Hds as [Hd Hds].
    unfold bind. rewrite (convert_message_dict d s Hd), (IH _ _ Hds).
    by rewrite <- (assoc_L (++)).
Qed.

Lemma prompt_to_template_dicts ds include s :
  Forall (fun d => text_entry d = true) ds ->
  prompt_to_template W (VList (VDict <$> ds)) include s
  = (Return (from_messages (template_messages ds include)), s).
Proof.
  intros Hds. unfold prompt_to_template, bind, lift, iterate.
  rewrite (convert_loop_dicts ds [] s Hds). unfold template_messages. simpl.
  destruct include; [done|]. by rewrite (right_id_L [] (++)).
Qed.

(** C8.  When the underlying prompt is a sequence of role-tagged
    mappings, whose roles and contents are strings where present, both
    [get_langchain_prompt_sync] and
    [get_langchain_prompt_async] return the template made of the messages
    the specification describes: entry number [i] of the sequence gives
    message number [i], by [message_of]; the template has one message per
    entry, plus one when the history placeholder is enabled, and that
    placeholder comes last. *)
Theorem prompt_conversion target_server include ds s s' :
  Forall (fun d => text_entry d = true) ds ->
  (_mcp_prompt_sync W target_server s = (Return (VList (VDict <$> ds)), s') ->
   get_langchain_prompt_sync W target_server include s
   = (Return (from_messages (template_messages ds include)), s')) /\
  (_mcp_prompt_async W target_server s = (Return (VList (VDict <$> ds)), s') ->
   get_langchain_prompt_async W target_server include s
   = (Return (from_messages (template_messages ds include)), s')) /\
  length (template_messages ds include)
  = (length ds + (if include then 1 else 0))%nat /\
  (forall i d, ds !! i = Some d ->
     template_messages ds include !! i = Some (message_of d)) /\
  (include = true ->
     template_messages ds include !! length ds
     = Some (MessagesPlaceholder "chat_history")).
Proof.
  intros Hds. split_and!.
  - intros Hfetch. unfold get_langchain_prompt_sync, bind. rewrite Hfetch.
    by apply prompt_to_template_dicts.
  - intros Hfetch. unfold get_langchain_prompt_async, bind. rewrite Hfetch.
    by apply prompt_to_template_dicts.
  - unfold template_messages. rewrite length_app, length_fmap.
    by destruct include.
  - intros i d Hi. unfold template_messages.
    rewrite lookup_app_l by (rewrite length_fmap; by eapply lookup_lt_Some).
    by rewrite list_lookup_fmap, Hi.
  - intros ->. unfold template_messages.
    rewrite lookup_app_r by (by rewrite length_fmap).
    by rewrite length_fmap, Nat.sub_diag.
Qed.

(** ** Creation *)


(** ** Reachable states *)

(** What one operation does to the fields of the service. *)
Lemma create_self t transport_type command args output_stream s :
  self (create W t transport_type command args output_stream s).2 = self s \/
  exists id multi,
    self (create W t transport_type command args output_stream s).2
    = {| client := VObj id; _is_connected := true;
         _is_multi_client := multi; _verbose := _verbose (self s) |}.
Proof.
  unfold create, _create_multi_server_client, value_error, new. step_client.
  repeat (case_match; simplify_eq/=); eauto.
Qed.

Lemma connect_self s :
  self (connect W s).2 = self s \/
  (exists id, client (self s) = VObj id) /\
  self (connect W s).2 = set_is_connected true (self s).
Proof. step_client. repeat (case_match; simplify_eq/=); eauto. Qed.

Lemma disconnect_self s :
  self (disconnect W s).2 = self s \/
  self (disconnect W s).2 = set_is_connected false (self s).
Proof. step_client. repeat (case_match; simplify_eq/=); eauto. Qed.

Lemma dispatch_self s :
  (forall sn tn kw, self (call_tool W sn tn kw s).2 = self s) /\
  (forall b, self (list_tools W b s).2 = self s) /\
  (forall sn, self (list_resources W sn s).2 = self s) /\
  (forall rn sn, self (read_resource W rn sn s).2 = self s) /\
  (forall sn, self (list_prompts W sn s).2 = self s) /\
  (forall pn a sn, self (get_prompt W pn a sn s).2 = self s).
Proof.
  split_and!; intros; step_client; by repeat (case_match; simplify_eq/=).
Qed.

Lemma run_keeps_handle o s :
  has_handle_when_connected s -> has_handle_when_connected (run W o s).
Proof.
  unfold has_handle_when_connected. intros Hinv.
  destruct (dispatch_self s) as (Hcall & Htools & Hres & Hread & Hprompts & Hget).
  destruct o; unfold run.
  - destruct (create_self url_or_configs transport_type command args
                output_stream s) as [-> | (id & multi & ->)]; [done|].
    by exists id.
  - destruct (connect_self s) as [-> | [Hid ->]]; done.
  - destruct (disconnect_self s) as [-> | ->]; done.
  - by rewrite Hcall.
  - by rewrite Htools.
  - by rewrite Hres.
  - by rewrite Hread.
  - by rewrite Hprompts.
  - by rewrite Hget.
Qed.

Lemma reachable_has_handle s :
  reachable W s -> has_handle_when_connected s.
Proof.
  induction 1 as [verbose|o s _ IH]; [by intros ?|].
  by apply run_keeps_handle.
Qed.

(** C9.  In every state reached from a fresh service by [create],
    [connect], [disconnect] and the dispatch methods, a set connection flag
    comes with a handle that is not [None].  Hence the two guards that
    open every dispatch method never end in "Client not created" there:
    whatever the rest [k] of the method is, the method raises "Client
    service not connected" or goes on with the handle. *)
Theorem connected_implies_created s :
  reachable W s ->
  (_is_connected (self s) = true -> client (self s) <> VNone) /\
  (forall A (k : value -> M MCPClientService A),
     (_check_connection ;; c <- _client_or_raise ;; k c) s
     = if _is_connected (self s) then k (client (self s)) s
       else (Raise not_connected, s)).
Proof.
  intros Hreach%reachable_has_handle. split.
  - intros Hflag. destruct (Hreach Hflag) as [id ->]. done.
  - intros A k. rewrite guards_run.
    destruct (_is_connected (self s)) eqn:Hflag; [|done].
    by destruct (Hreach Hflag) as [id ->].
Qed.

End ClientFacts.

(** ** The client on concrete collaborators *)

Section ClientExamples.
Import ClientService PromptSpec Worlds.

(** [call_tool("serverA", "toolX", a=1)] in the two modes. *)
Lemma call_tool_shapes_witness :
  call_tool quiet "serverA" "toolX" {[ "a" := VInt 1 ]}
            (State (connected_client true) [])
  = (Return VNone,
     State (connected_client true)
           [Call 0 "call_tool"
                 [VStr "serverA"; VStr "toolX"; VDict {[ "a" := VInt 1 ]}] ∅])
  /\
  call_tool quiet "serverA" "toolX" {[ "a" := VInt 1 ]}
            (State (connected_client false) [])
  = (Return VNone,
     State (connected_client false)
           [Call 0 "call_tool" [VStr "toolX"] {[ "a" := VInt 1 ]}]).
Proof. split; by rewrite (call_tool_shapes quiet _ _ _ _ 0). Defined.

(** A router that knows no server "nowhere": [get_client] returns
    [None], [call_tool] raises. *)
Lemma unknown_server_soft_miss_witness :
  list_resources (raising "call_tool" "Server not found") "nowhere"
                 (State (connected_client true) [])
  = (Return (VList []),
     State (connected_client true)
           [Call 0 "get_client" [VStr "nowhere"] ∅]) /\
  call_tool (raising "call_tool" "Server not found") "nowhere" "toolX" ∅
            (State (connected_client true) [])
  = (Raise (Exn (OtherException "Exception") "Server not found" None),
     State (connected_client true)
           [Call 0 "call_tool" [VStr "nowhere"; VStr "toolX"; VDict ∅] ∅]).
Proof.
  destruct (unknown_server_soft_miss
              (raising "call_tool" "Server not found")
              "nowhere" "cities" "greeting" None "toolX" ∅
              (State (connected_client true) []) 0 VNone)
    as [(Hres & _) (Hcall & _)]; done.
Defined.

(** C5 fails as stated.  On a freshly constructed service, which has no
    handle and is not connected, [call_tool] raises the connection-state
    error "Client service not connected", not the creation-state error
    "Client not created". *)
Lemma fresh_service_reports_not_connected :
  client (__init__ false) = VNone /\
  _is_connected (__init__ false) = false /\
  call_tool quiet "default" "test_tool" {[ "param" := VStr "value" ]}
            (State (__init__ false) [])
  = (Raise (Exn ValueError "Client service not connected" None),
     State (__init__ false) []) /\
  Exn ValueError "Client service not connected" None <> not_created.
Proof. by split_and!. Qed.

(** [list_prompts] on a fresh service, and on one whose flag was set
    without creating a handle. *)
Lemma connection_checked_before_creation_witness :
  list_prompts quiet "default" (State (__init__ false) [])
  = (Raise not_connected, State (__init__ false) []) /\
  list_prompts quiet "default"
               (State (set_is_connected true (__init__ false)) [])
  = (Raise not_created, State (set_is_connected true (__init__ false)) []).
Proof.
  split.
  - destruct (connection_checked_before_creation quiet
                "default" "test_tool" ∅ true "cities" "greeting" None
                (State (__init__ false) [])) as [Hfirst _].
    by destruct (Hfirst eq_refl) as (_ & _ & _ & _ & Hprompts & _).
  - destruct (connection_checked_before_creation quiet
                "default" "test_tool" ∅ true "cities" "greeting" None
                (State (set_is_connected true (__init__ false)) []))
      as [_ Hsecond].
    by destruct (Hsecond eq_refl eq_refl) as (_ & _ & _ & _ & Hprompts & _).
Defined.

(** The template built from [sample_prompt] by a single-endpoint
    service. *)
Lemma prompt_conversion_witness :
  get_langchain_prompt_sync (prompting (VList (VDict <$> sample_prompt)))
                            None true (State (connected_client false) [])
  = (Return (from_messages
               [ ChatMessage (VStr "system") (VStr "You are helpful.");
                 HumanMessage (VStr "Hi");
                 AIMessage (VStr "Hello");
                 ChatMessage (VStr "system") (VStr "untagged");
                 MessagesPlaceholder "chat_history" ]),
     State (connected_client false) [Call 0 "get_prompt" [] ∅]).
Proof.
  assert (Forall (fun d => text_entry d = true) sample_prompt) as Htext
    by (repeat constructor).
  destruct (prompt_conversion (prompting (VList (VDict <$> sample_prompt)))
              None true sample_prompt (State (connected_client false) [])
              (State (connected_client false) [Call 0 "get_prompt" [] ∅])
              Htext)
    as (Hsync & _).
  by rewrite Hsync.
Defined.

(** After a successful [create] the service is connected and has its
    handle. *)
Lemma connected_implies_created_witness :
  client (self (run quiet
                    (OpCreate (Url "http://localhost:8000") "sse" None None
                              VNone)
                    (State (__init__ false) []))) <> VNone.
Proof.
  by apply (connected_implies_created quiet _
              (reach_step quiet _ _ (reach_init quiet false))).
Defined.


(** Replays of the unit tests of the repository. *)

Example test_create :
  create quiet (Url "http://localhost:8000") "sse" None None VNone
         (State (__init__ false) [])
  = (Return "Client created connected to http://localhost:8000",
     State {| client := VObj 0; _is_connected := true;
              _is_multi_client := false; _verbose := false |}
           [New "ClientSession" [VStr "http://localhost:8000"]
                {[ "write_stream" := VNullOutputStream ]}]).
Proof. reflexivity. Qed.

Example test_create_with_invalid_transport :
  create quiet (Url "http://localhost:8000") "invalid_type" None None VNone
         (State (__init__ false) [])
  = (Raise (Exn ValueError "Unsupported transport type: invalid_type" None),
     State (__init__ false) []).
Proof. reflexivity. Qed.

Example test_create_stdio_client_with_args :
  create quiet (Url "/path/to/server.py") "stdio" None None VNone
         (State (__init__ false) [])
  = (Return "Client created connected to /path/to/server.py",
     State {| client := VObj 1; _is_connected := true;
              _is_multi_client := false; _verbose := false |}
           [New "StdioServerParameters" []
                {[ "command" := VStr "python";
                   "args" := VList [VStr "/path/to/server.py"] ]};
            New "stdio_client" [VObj 0] ∅]).
Proof. reflexivity. Qed.

Example test_connect_without_client :
  connect quiet (State (__init__ false) [])
  = (Raise not_created, State (__init__ false) []).
Proof. reflexivity. Qed.

Example test_multi_server_client_failures :
  (create (raising_new "Connection failed") (Configs ∅) "sse" None None VNone
          (State (__init__ false) [])).1
  = Raise (Exn ValueError
             ("Failed to create multi-server client: "
              +:+ "Failed to create multi-server client: Connection failed")
             (Some (Exn ValueError
                      "Failed to create multi-server client: Connection failed"
                      (Some (Exn (OtherException "Exception")
                                 "Connection failed" None))))).
Proof. reflexivity. Qed.

End ClientExamples.

(* ===================================================================== *)
(** * Further properties of the server service                           *)
(* ===================================================================== *)

Section ServerLifecycle.
Import ServerService Scenarios.
Context (W : world).
Implicit Types (s : state MCPServerService) (host : string) (port : Z).

Ltac run_server :=
  unfold start, stop, get_url, add_tool, add_resource, add_prompt, wrap,
    bind, get, ret, raise, try_except, modify, lift, call, setattr; simpl.

(** X1.  A server that is not running can be polled: [stop] and
    [get_url] return the status "Server is not currently running" as an
    ordinary result, make no call on the handle and change nothing. *)
Theorem polling_a_stopped_server s :
  _is_running (self s) = false ->
  stop W s = (Return "Server is not currently running", s) /\
  get_url W s = (Return (VStr "Server is not currently running"), s).
Proof. intros Hrun. split; run_server; by rewrite Hrun. Qed.

(** X2.  When the handle's stop primitive raises, [stop] raises a
    [RuntimeError] carrying the cause and the service is exactly as
    before: still running, same host, port and handle. *)
Theorem stop_failure_keeps_running s h e :
  _is_running (self s) = true ->
  _server (self s) = VObj h ->
  on_call W (log s) h "stop" [] ∅ = Raise e ->
  stop W s =
  (Raise (Exn RuntimeError ("Failed to stop server: " +:+ exn_str e)
              (Some e)),
   State (self s) (log s ++ [Call h "stop" [] ∅])).
Proof.
  intros Hrun Hsrv Hstop. run_server. rewrite Hrun. simpl.
  by rewrite Hsrv, Hstop.
Qed.

(** X3.  [stop] is idempotent: after a stop that succeeded, a second
    [stop] returns the not-running status and does not reach the handle, so
    the handle's stop primitive is invoked once; host and port survive. *)
Theorem stop_twice s h r :
  _is_running (self s) = true ->
  _server (self s) = VObj h ->
  on_call W (log s) h "stop" [] ∅ = Return r ->
  (stop W ;; stop W) s =
  (Return "Server is not currently running",
   State {| _is_running := false; _host := _host (self s);
            _port := _port (self s); _server := VObj h |}
         (log s ++ [Call h "stop" [] ∅])).
Proof.
  intros Hrun Hsrv Hstop. run_server. rewrite Hrun. simpl.
  rewrite Hsrv, Hstop. simpl. unfold set_is_running. by rewrite Hsrv.
Qed.

(** X4.  With collaborators that do not raise, a stopped service that is
    started at one address, stopped, and started at another address ends
    up running at the second address, whereas a second [start] without the
    [stop] in between reports the first address and keeps it. *)
Theorem restart_takes_the_new_address s h h1 p1 h2 p2 :
  obliging W ->
  _is_running (self s) = false ->
  _server (self s) = VObj h ->
  ((start W h1 p1 ;; stop W ;; start W h2 p2) s).1
  = Return ("Server started at http://" +:+ h2 +:+ ":" +:+ pretty p2) /\
  self ((start W h1 p1 ;; stop W ;; start W h2 p2) s).2
  = {| _is_running := true; _host := h2; _port := p2; _server := VObj h |} /\
  ((start W h1 p1 ;; start W h2 p2) s).1
  = Return ("Server is already running: http://" +:+ h1 +:+ ":"
            +:+ pretty p1) /\
  self ((start W h1 p1 ;; start W h2 p2) s).2
  = {| _is_running := true; _host := h1; _port := p1; _server := VObj h |}.
Proof.
  intros [Hcall Hset] Hrun Hsrv.
  assert (forall s0 host port,
    _is_running (self s0) = false -> _server (self s0) = VObj h ->
    exists tr,
      start W host port s0
      = (Return ("Server started at http://" +:+ host +:+ ":" +:+ pretty port),
         State {| _is_running := true; _host := host; _port := port;
                  _server := VObj h |} tr)) as Hstart.
  { intros s0 host port Hrun0 Hsrv0. run_server. rewrite Hrun0, Hsrv0. simpl.
    rewrite Hset.
    destruct (Hcall (log s0 ++ [SetAttr h "name" (VStr "mcp-server")]) h
                "start" [] {[ "host" := VStr host; "port" := VInt port ]})
      as [v ->].
    eexists. unfold set_is_running, set_port, set_host. simpl.
    by rewrite Hsrv0. }
  destruct (Hstart s h1 p1 Hrun Hsrv) as [tr1 Hfirst].
  unfold bind. rewrite Hfirst.
  assert (exists tr,
    stop W (State {| _is_running := true; _host := h1; _port := p1;
                     _server := VObj h |} tr1)
    = (Return "Server stopped",
       State {| _is_running := false; _host := h1; _port := p1;
                _server := VObj h |} tr)) as [tr2 Hsecond].
  { run_server. destruct (Hcall tr1 h "stop" [] ∅) as [v ->]. by eexists. }
  rewrite Hsecond.
  destruct (Hstart (State {| _is_running := false; _host := h1; _port := p1;
                             _server := VObj h |} tr2) h2 p2 eq_refl eq_refl)
    as [tr3 ->].
  by split_and!.
Qed.

(** X5.  On a running server [get_url] asks the handle and returns its
    answer when that is truthy; when the handle answers with something
    falsy (an empty string, [None]) the URL is made of the stored host and
    port.  Either way nothing in the service changes. *)
Theorem get_url_prefers_the_handle s h u :
  _is_running (self s) = true ->
  _server (self s) = VObj h ->
  on_call W (log s) h "get_url" [] ∅ = Return u ->
  get_url W s =
  (Return (if truthy u then u
           else VStr ("http://" +:+ _host (self s) +:+ ":"
                      +:+ pretty (_port (self s)))),
   State (self s) (log s ++ [Call h "get_url" [] ∅])).
Proof.
  intros Hrun Hsrv Hurl. run_server. rewrite Hrun. simpl.
  rewrite Hsrv, Hurl. simpl. by destruct (truthy u).
Qed.

(** X6.  Whatever the collaborators do, an exception that leaves a
    lifecycle or mutation method of the server service is a
    [RuntimeError] whose cause is set and whose message ends with the
    message of the cause: the handle's own exception class never reaches
    the caller. *)
Theorem server_errors_are_wrapped s e :
  (forall host port, (start W host port s).1 = Raise e -> wrapped e) /\
  ((stop W s).1 = Raise e -> wrapped e) /\
  ((get_url W s).1 = Raise e -> wrapped e) /\
  (forall name description code,
     (add_tool W name description code s).1 = Raise e -> wrapped e) /\
  (forall name content description,
     (add_resource W name content description s).1 = Raise e -> wrapped e) /\
  (forall name content description,
     (add_prompt W name content description s).1 = Raise e -> wrapped e).
Proof.
  unfold wrapped.
  split_and!; intros; revert select (_ = Raise e);
    unfold _compile_tool_code, exec, full_code; run_server;
    repeat (case_match; simplify_eq/=); intros; simplify_eq/=;
    match goal with
    | |- exists _ _, Exn _ _ (Some ?cause) = _ => by eexists _, cause
    end.
Qed.

End ServerLifecycle.

Section ServerFrame.
Import ServerService.
Context (W : world).
Implicit Types (s : state MCPServerService).

Ltac run_server :=
  unfold start, stop, get_url, add_tool, add_resource, add_prompt, wrap,
    _compile_tool_code, exec, full_code,
    bind, get, ret, raise, try_except, modify, lift, call, setattr; simpl.

(** X7.  What the methods leave alone, whether they return or raise.
    The three mutations and [get_url] change no field of the service;
    [stop] changes neither host, port nor handle; [start] never replaces
    the handle; and no method other than [start] and [stop] can change the
    running flag. *)
Theorem server_frame s :
  (forall name description code,
     self (add_tool W name description code s).2 = self s) /\
  (forall name content description,
     self (add_resource W name content description s).2 = self s) /\
  (forall name content description,
     self (add_prompt W name content description s).2 = self s) /\
  self (get_url W s).2 = self s /\
  (_host (self (stop W s).2) = _host (self s) /\
   _port (self (stop W s).2) = _port (self s) /\
   _server (self (stop W s).2) = _server (self s)) /\
  (forall host port,
     _server (self (start W host port s).2) = _server (self s)).
Proof.
  split_and!; intros; run_server; by repeat (case_match; simplify_eq/=).
Qed.

(** ** The namespace of compiled tools *)

Lemma safe_builtin_not_module x :
  x ∈ safe_builtins -> x <> "json" /\ x <> "requests".
Proof.
  intros Hx. split; intros ->; revert Hx; by apply (bool_decide_eq_false_1 _).
Qed.

Lemma filtered_builtins_lookup x (items : list (string * value)) :
  forall sb : gmap string value,
    is_Some (foldl (fun sb '(k, v) =>
                      if bool_decide (k ∈ safe_builtins)
                      then <[k := v]> sb else sb) sb items !! x)
    <-> is_Some (sb !! x) \/ (x ∈ safe_builtins /\ x ∈ items.*1).
Proof.
  induction items as [|[k v] items IH]; intros sb; simpl.
  - split; [by left|]. intros [?|[_ Hin]]; [done|]. by apply elem_of_nil in Hin.
  - rewrite IH. case_bool_decide as Hk.
    + destruct (decide (k = x)) as [->|Hne].
      * rewrite lookup_insert_eq. split; intros _.
        -- right. split; [done|]. by left.
        -- by left.
      * rewrite lookup_insert_ne by done. rewrite elem_of_cons.
        split; intros [?|[? ?]]; auto. right. split; [done|].
        by destruct_or!; [congruence|].
    + rewrite elem_of_cons. split; intros [?|[Hx ?]]; auto.
      right. split; [done|]. destruct_or!; [|done]. congruence.
Qed.

(** X8.  The dictionary in which tool code is compiled binds only names
    of the allow-list.  The two helper modules are always bound, to
    themselves; a safe builtin is bound exactly when the interpreter's
    builtins dictionary has it. *)
Theorem safe_namespace_is_the_allow_list x :
  (is_Some (safe_namespace W !! x) -> x ∈ allow_list) /\
  safe_namespace W !! "json" = Some (VModule "json") /\
  safe_namespace W !! "requests" = Some (VModule "requests") /\
  (x ∈ safe_builtins ->
   is_Some (safe_namespace W !! x) <-> x ∈ (builtins_items W).*1).
Proof.
  split_and!.
  - intros Hsome. destruct (decide (x ∈ allow_list)) as [|Hout]; [done|].
    rewrite (safe_namespace_lookup W x Hout) in Hsome. by destruct Hsome.
  - unfold safe_namespace. by rewrite lookup_insert_eq.
  - unfold safe_namespace. rewrite lookup_insert_ne by done.
    by rewrite lookup_insert_eq.
  - intros Hx. destruct (safe_builtin_not_module x Hx) as [Hjson Hrequests].
    unfold safe_namespace. rewrite !lookup_insert_ne by done.
    rewrite filtered_builtins_lookup, lookup_empty. split.
    + intros [[? ?]|[_ ?]]; done.
    + intros ?. by right.
Qed.

End ServerFrame.

Section ServerConstruction.
Import ServerService.
Context (W : world).
Implicit Types (s : state MCPServerService).

Ltac run_init :=
  unfold __init__, server, _create_custom_server, _create_default_server,
    wrap, new, bind, get, ret, raise, try_except, modify; simpl.

(** X9.  Constructing the service with a server type that is not empty
    and is not "fastmcp" in any letter case fails without creating
    anything: the [ValueError] naming the type is wrapped twice, so the
    caller gets a [RuntimeError] whose message is "Failed to create MCP
    server: Failed to create server type '<type>': Unsupported server
    type: <type>". *)
Theorem unsupported_server_type t tr :
  t <> "" ->
  lower t <> "fastmcp" ->
  __init__ W (Some t) (State blank tr) =
  (Raise
     (Exn RuntimeError
        ("Failed to create MCP server: "
         +:+ ("Failed to create server type '" +:+ t +:+ "': ")
         +:+ "Unsupported server type: " +:+ t)
        (Some
           (Exn RuntimeError
              (("Failed to create server type '" +:+ t +:+ "': ")
               +:+ "Unsupported server type: " +:+ t)
              (Some (Exn ValueError ("Unsupported server type: " +:+ t)
                         None))))),
   State blank tr).
Proof.
  intros Hne Hother. run_init.
  rewrite (proj2 (String.eqb_neq t "") Hne). simpl.
  by rewrite (proj2 (String.eqb_neq (lower t) "fastmcp") Hother).
Qed.

(** X10.  Without a server type, or with the empty string, the service
    is built around one instance of the default server class: when the
    class can be instantiated the new service is not running, stores
    localhost and 8000 and holds the instance; when it cannot, the
    constructor raises a [RuntimeError] carrying the cause. *)
Theorem default_construction tr :
  __init__ W (Some "") (State blank tr) = __init__ W None (State blank tr) /\
  __init__ W None (State blank tr) =
  (match on_new W tr "MCPServerClass" [] ∅ with
   | Return id => Return tt
   | Raise e =>
       Raise (Exn RuntimeError ("Failed to create MCP server: " +:+ exn_str e)
                  (Some e))
   end,
   State (match on_new W tr "MCPServerClass" [] ∅ with
          | Return id => {| _is_running := false; _host := "localhost";
                            _port := 8000; _server := VObj id |}
          | Raise e => blank
          end)
         (tr ++ [New "MCPServerClass" [] ∅])).
Proof.
  split; [done|]. run_init. by destruct (on_new W tr _ _ _).
Qed.

(** X11.  The [server] property creates the handle at most once.  With
    a handle in place it returns it and touches nothing; and whenever an
    access returns, the next access returns the same handle from the same
    state, without another construction. *)
Theorem server_property_is_lazy s v s1 :
  (_server (self s) <> VNone -> server W s = (Return (_server (self s)), s)) /\
  (server W s = (Return v, s1) -> server W s1 = (Return v, s1)).
Proof.
  split.
  - intros Hset. run_init. destruct s as [[running host port srv] tr].
    simpl in *. by destruct srv.
  - run_init. destruct s as [[running host port srv] tr]. simpl.
    destruct srv; simpl; try (intros [= <- <-]; done).
    destruct (on_new W tr _ _ _); simpl; [|done].
    by intros [= <- <-].
Qed.

End ServerConstruction.

(* ===================================================================== *)
(** * Further properties of the client service                           *)
(* ===================================================================== *)

Section ClientLifecycle.
Import ClientService.
Context (W : world).
Implicit Types (s : state MCPClientService).

Ltac run_client :=
  unfold create, _create_multi_server_client, value_error, new,
    call_tool, list_tools, list_resources, read_resource, list_prompts,
    get_prompt, connect, disconnect, _check_connection, _client_or_raise,
    bind, get, ret, raise, try_except, modify, lift, call; simpl.

(** X12.  [create] is all or nothing.  Whatever its arguments and
    whatever the collaborators do, when it raises, the exception is a
    [ValueError] and the client, the connection flag and the mode flag are
    as before the call. *)
Theorem create_failure_changes_nothing
        t transport_type command args output_stream s e :
  (create W t transport_type command args output_stream s).1 = Raise e ->
  exn_cls e = ValueError /\
  self (create W t transport_type command args output_stream s).2 = self s.
Proof.
  run_client. by repeat (case_match; simplify_eq/=); intros; simplify_eq/=.
Qed.

(** X13.  When [create] returns, the service was not connected before
    and is connected now, it holds a handle that is not [None], and it is
    in multi-endpoint mode exactly when the target was a configuration
    dictionary. *)
Theorem create_success_fixes_the_mode
        t transport_type command args output_stream s msg :
  (create W t transport_type command args output_stream s).1 = Return msg ->
  _is_connected (self s) = false /\
  _is_connected
    (self (create W t transport_type command args output_stream s).2) = true /\
  (exists id,
     client (self (create W t transport_type command args output_stream s).2)
     = VObj id) /\
  _is_multi_client
    (self (create W t transport_type command args output_stream s).2)
  = match t with Configs _ => true | Url _ => false end.
Proof.
  run_client.
  repeat (case_match; simplify_eq/=); intros; simplify_eq/=; eauto.
Qed.

(** X14.  Two ways [create] refuses before it reaches any collaborator:
    on a connected service, whatever the arguments; and on a URL with a
    transport other than "sse" and "stdio", with a message that names the
    transport.  State and trace are untouched. *)
Theorem create_refusals t url transport_type command args output_stream s :
  (_is_connected (self s) = true ->
   create W t transport_type command args output_stream s
   = (Raise (Exn ValueError "Client service already connected" None), s)) /\
  (_is_connected (self s) = false ->
   transport_type <> "sse" -> transport_type <> "stdio" ->
   create W (Url url) transport_type command args output_stream s
   = (Raise (Exn ValueError
               ("Unsupported transport type: " +:+ transport_type) None), s)).
Proof.
  split.
  - intros Hflag. run_client. by rewrite Hflag.
  - intros Hflag Hsse Hstdio. run_client. rewrite Hflag.
    rewrite (proj2 (String.eqb_neq _ _) Hsse).
    by rewrite (proj2 (String.eqb_neq _ _) Hstdio).
Qed.

(** X15.  An exception raised by the handle's connect or disconnect
    primitive reaches the caller as it is, not wrapped, and the connection
    flag keeps the value it had. *)
Theorem connect_errors_pass_through s c e :
  client (self s) = VObj c ->
  (on_call W (log s) c "connect" [] ∅ = Raise e ->
   connect W s
   = (Raise e, State (self s) (log s ++ [Call c "connect" [] ∅]))) /\
  (on_call W (log s) c "disconnect" [] ∅ = Raise e ->
   disconnect W s
   = (Raise e, State (self s) (log s ++ [Call c "disconnect" [] ∅]))).
Proof.
  intros Hc. split; intros Hraise; run_client; by rewrite Hc, Hraise.
Qed.

(** X16.  [disconnect] clears the flag and keeps the handle.  After a
    disconnect that succeeded every dispatch fails with "Client service
    not connected" without reaching the handle, and a [connect] that
    succeeds makes the same handle usable again, with no new [create]. *)
Theorem disconnect_then_reconnect s c r r' sn tn kw :
  client (self s) = VObj c ->
  on_call W (log s) c "disconnect" [] ∅ = Return r ->
  on_call W (log s ++ [Call c "disconnect" [] ∅]) c "connect" [] ∅
  = Return r' ->
  (disconnect W s).1 = Return "Disconnected" /\
  self (disconnect W s).2 = set_is_connected false (self s) /\
  call_tool W sn tn kw (disconnect W s).2
  = (Raise not_connected, (disconnect W s).2) /\
  (connect W (disconnect W s).2).1 = Return "Connection successful" /\
  self (connect W (disconnect W s).2).2 = set_is_connected true (self s).
Proof.
  intros Hc Hdis Hcon.
  assert (disconnect W s
          = (Return "Disconnected",
             State (set_is_connected false (self s))
                   (log s ++ [Call c "disconnect" [] ∅]))) as ->.
  { run_client. by rewrite Hc, Hdis. }
  split_and!; [done..| |].
  - run_client. rewrite Hc. simpl. by rewrite Hcon.
  - run_client. rewrite Hc. simpl. by rewrite Hcon.
Qed.

End ClientLifecycle.

Section ClientDispatch.
Import ClientService PromptSpec.
Context (W : world).
Implicit Types (s : state MCPClientService).

Ltac run_client :=
  unfold call_tool, list_tools, list_resources, read_resource, list_prompts,
    get_prompt, list_tools_sync, get_tools, set_prompt, get_prompt_sync,
    get_prompt_by_target, list_resources_internal, read_resource_internal,
    list_prompts_internal, add_resource, remove_resource,
    _call_with_target, _check_connection, _client_or_raise,
    bind, get, ret, raise, try_except, modify, lift, call; simpl.

(** X17.  In single-endpoint mode every discovery method is one call on
    the session, whose outcome, value or exception, is returned as it is.
    The server name is not used, nor is the prefix option of
    [list_tools]; [get_prompt] passes the arguments on as given, [None]
    included. *)
Theorem single_mode_forwards s c prefix sn rn pn args :
  _is_connected (self s) = true ->
  client (self s) = VObj c ->
  _is_multi_client (self s) = false ->
  list_tools W prefix s = one_call W s c "list_tools" [] ∅ /\
  list_resources W sn s = one_call W s c "list_resources" [] ∅ /\
  read_resource W rn sn s = one_call W s c "read_resource" [VStr rn] ∅ /\
  list_prompts W sn s = one_call W s c "list_prompts" [] ∅ /\
  get_prompt W pn args sn s
  = one_call W s c "get_prompt" [VStr pn; optional_dict args] ∅.
Proof.
  intros Hflag Hc Hmulti. unfold one_call.
  split_and!; run_client; rewrite Hflag; simpl; rewrite Hc; simpl;
    by rewrite Hmulti.
Qed.

(** X18.  In multi-endpoint mode [list_tools] is the router's
    [list_all_tools] with the prefix option as keyword.  The other
    discovery methods first ask the router for the sub-session of the
    server name; when the router answers with an object, the request goes
    to that object, not to the router, and its outcome is returned as it
    is. *)
Theorem multi_mode_resolves s c sub prefix sn rn pn args :
  _is_connected (self s) = true ->
  client (self s) = VObj c ->
  _is_multi_client (self s) = true ->
  on_call W (log s) c "get_client" [VStr sn] ∅ = Return (VObj sub) ->
  let s' := State (self s) (log s ++ [Call c "get_client" [VStr sn] ∅]) in
  list_tools W prefix s
  = one_call W s c "list_all_tools" [] {[ "include_prefix" := VBool prefix ]} /\
  list_resources W sn s = one_call W s' sub "list_resources" [] ∅ /\
  read_resource W rn sn s = one_call W s' sub "read_resource" [VStr rn] ∅ /\
  list_prompts W sn s = one_call W s' sub "list_prompts" [] ∅ /\
  get_prompt W pn args sn s
  = one_call W s' sub "get_prompt" [VStr pn; VDict (dict_or args ∅)] ∅.
Proof.
  intros Hflag Hc Hmulti Hsub s'. unfold one_call, s'.
  split_and!; run_client; rewrite Hflag; simpl; rewrite Hc; simpl;
    rewrite Hmulti; simpl; try done; by rewrite Hsub.
Qed.

(** X19.  The prompt arguments default differently in the two modes.
    In multi-endpoint mode missing arguments and an empty dictionary are
    the same request.  In single-endpoint mode they are not: missing
    arguments reach the session as [None], an empty dictionary as an empty
    dictionary. *)
Theorem prompt_arguments_default s c pn sn :
  _is_connected (self s) = true ->
  client (self s) = VObj c ->
  (_is_multi_client (self s) = true ->
   get_prompt W pn None sn s = get_prompt W pn (Some ∅) sn s) /\
  (_is_multi_client (self s) = false ->
   log (get_prompt W pn None sn s).2
   = log s ++ [Call c "get_prompt" [VStr pn; VNone] ∅] /\
   log (get_prompt W pn (Some ∅) sn s).2
   = log s ++ [Call c "get_prompt" [VStr pn; VDict ∅] ∅]).
Proof.
  intros Hflag Hc. split; intros Hmulti.
  - run_client. rewrite Hflag. simpl. rewrite Hc. simpl. by rewrite Hmulti.
  - split; run_client; rewrite Hflag; simpl; rewrite Hc; simpl;
      by rewrite Hmulti.
Qed.

(** X20.  For the methods with an optional target server, an empty
    target is no target: the call made is the one made without a target,
    in either mode.  In single-endpoint mode any target is ignored. *)
Theorem empty_target_is_no_target s target msgs rid content :
  (target = Some "" \/ _is_multi_client (self s) = false) ->
  list_tools_sync W target s = list_tools_sync W None s /\
  get_tools W target s = get_tools W None s /\
  set_prompt W msgs target s = set_prompt W msgs None s /\
  get_prompt_sync W target s = get_prompt_sync W None s /\
  get_prompt_by_target W target s = get_prompt_by_target W None s /\
  list_resources_internal W target s = list_resources_internal W None s /\
  read_resource_internal W rid target s
  = read_resource_internal W rid None s /\
  list_prompts_internal W target s = list_prompts_internal W None s /\
  add_resource W rid content target s = add_resource W rid content None s /\
  remove_resource W rid target s = remove_resource W rid None s.
Proof.
  destruct s as [[c connected multi verbose] tr]. simpl.
  intros [-> | ->].
  - split_and!; run_client; by destruct connected, c, multi.
  - split_and!; run_client; by destruct connected, c.
Qed.

(** X21.  The soft miss of [get_langchain_prompt_async]: in
    multi-endpoint mode with a target server the router does not know
    (its [get_client] returns a falsy value) no prompt is fetched and the
    template is empty, up to the history placeholder when that is
    enabled. *)
Theorem async_prompt_soft_miss s c t v include :
  _is_connected (self s) = true ->
  client (self s) = VObj c ->
  _is_multi_client (self s) = true ->
  t <> "" ->
  on_call W (log s) c "get_client" [VStr t] ∅ = Return v ->
  truthy v = false ->
  get_langchain_prompt_async W (Some t) include s
  = (Return (from_messages
               (if include then [MessagesPlaceholder "chat_history"] else [])),
     State (self s) (log s ++ [Call c "get_client" [VStr t] ∅])).
Proof.
  intros Hflag Hc Hmulti Ht Hget Hfalsy.
  unfold get_langchain_prompt_async, _mcp_prompt_async, prompt_to_template,
    iterate, named. run_client.
  rewrite Hflag. simpl. rewrite Hc. simpl. rewrite Hmulti.
  rewrite (proj2 (String.eqb_neq _ _) Ht). simpl.
  rewrite Hget. simpl. rewrite Hfalsy. simpl. by destruct include.
Qed.

(** ** Conversion of tools *)



End ClientDispatch.

(* ===================================================================== *)
(** * Properties of the tools, the factory and the toolkit               *)
(* ===================================================================== *)

Section ToolFacts.
Import ClientService ClientTools.
Context (W : world).
Implicit Types (s : state MCPClientService).

Ltac run_client :=
  unfold ClientReadResourceTool_run, get_langchain_prompt, get_prompt,
    read_resource, one_call, new, _check_connection, _client_or_raise,
    bind, get, ret, raise, try_except, modify, lift, call; simpl.

(** X23.  [ClientReadResourceTool] hands its two strings to the service
    by position with the server name first, while the service takes the
    resource name first.  So in single-endpoint mode the session is asked
    to read the resource named by the tool's [server_name] argument, and
    in multi-endpoint mode the router is asked for the sub-session named
    by the tool's [resource_name] argument. *)
Theorem read_resource_tool_argument_order s c resource_name server_name :
  _is_connected (self s) = true ->
  client (self s) = VObj c ->
  (_is_multi_client (self s) = false ->
   ClientReadResourceTool_run W true resource_name server_name s
   = one_call W s c "read_resource" [VStr server_name] ∅) /\
  (_is_multi_client (self s) = true ->
   exists rest,
     log (ClientReadResourceTool_run W true resource_name server_name s).2
     = log s ++ Call c "get_client" [VStr resource_name] ∅ :: rest).
Proof.
  intros Hflag Hc. split; intros Hmulti; run_client; rewrite Hflag; simpl;
    rewrite Hc; simpl; rewrite Hmulti; simpl; [done|].
  destruct (on_call W (log s) c _ _ _) as [v|e]; simpl; [|by eexists].
  destruct (truthy v); [|by eexists].
  destruct v; simpl; try by eexists.
  rewrite <- (assoc_L (++)). by eexists.
Qed.

(** X24.  [get_langchain_prompt] on a server the router does not know:
    the soft miss of [get_prompt] is not an error here either, the
    converter of the adapter library is handed the empty dictionary, and
    what it returns comes back as a list of one message. *)
Theorem langchain_prompt_of_unknown_server s c pn args sn v m :
  _is_connected (self s) = true ->
  client (self s) = VObj c ->
  _is_multi_client (self s) = true ->
  on_call W (log s) c "get_client" [VStr sn] ∅ = Return v ->
  truthy v = false ->
  on_new W (log s ++ [Call c "get_client" [VStr sn] ∅])
         "convert_mcp_prompt_message_to_langchain_message" [VDict ∅] ∅
  = Return m ->
  get_langchain_prompt W pn args sn s
  = (Return [VObj m],
     State (self s)
           (log s ++ [Call c "get_client" [VStr sn] ∅;
                      New "convert_mcp_prompt_message_to_langchain_message"
                          [VDict ∅] ∅])).
Proof.
  intros Hflag Hc Hmulti Hget Hfalsy Hconv. run_client.
  rewrite Hflag. simpl. rewrite Hc. simpl. rewrite Hflag. simpl.
  rewrite Hc. simpl. rewrite Hmulti, Hget. simpl. rewrite Hfalsy. simpl.
  by rewrite Hconv, <- (assoc_L (++)).
Qed.

End ToolFacts.

Section FactoryFacts.
Import ToolFactory.

Lemma create_all_tools_available f : create_all_tools f = Return (available f).
Proof.
  unfold create_all_tools, available, create_client_tools,
    create_server_tools. by destruct (_client_service f), (_server_service f).
Qed.

(** X25.  [create_all_tools] never raises: it returns the client tools
    when a client service is initialised, followed by the server tools
    when a server service is, and nothing at all for a factory without
    services, where [create_client_tools] and [create_server_tools] raise
    a [ValueError].  No two tools it returns have the same name. *)
Theorem all_tools_of_a_factory f :
  create_all_tools f = Return (available f) /\
  NoDup (name <$> available f) /\
  (_client_service f = None -> exists e,
     create_client_tools f = Raise e /\ exn_cls e = ValueError) /\
  (_server_service f = None -> exists e,
     create_server_tools f = Raise e /\ exn_cls e = ValueError) /\
  create_all_tools ToolFactory.__init__ = Return [].
Proof.
  split_and!.
  - apply create_all_tools_available.
  - unfold available.
    destruct (_client_service f), (_server_service f);
      by apply (bool_decide_unpack _).
  - intros Hnone. unfold create_client_tools. rewrite Hnone. by eexists.
  - intros Hnone. unfold create_server_tools. rewrite Hnone. by eexists.
  - done.
Qed.

Lemma pick_names all_tools names : forall result,
  name <$> pick all_tools names result
  = (name <$> result)
    ++ filter (fun n => n ∈ name <$> all_tools) names.
Proof.
  induction names as [|n names IH]; intros result; simpl.
  - by rewrite filter_nil, (right_id_L [] (++)).
  - rewrite filter_cons.
    destruct (filter (fun t => name t = n) all_tools) as [|t matching] eqn:Hm.
    + rewrite IH. rewrite decide_False; [done|].
      intros (t & -> & Hin)%list_elem_of_fmap.
      assert (t ∈ filter (fun t' => name t' = name t) all_tools) as Hin'
        by by apply list_elem_of_filter.
      rewrite Hm in Hin'. by apply elem_of_nil in Hin'.
    + assert (t ∈ filter (fun t' => name t' = n) all_tools) as Hin
        by (rewrite Hm; by left).
      apply list_elem_of_filter in Hin as [Hname Hin].
      rewrite IH, fmap_app. simpl. rewrite Hname.
      rewrite decide_True by (rewrite <- Hname; by apply list_elem_of_fmap_2).
      by rewrite <- (assoc_L (++)).
Qed.

Lemma pick_from all_tools names : forall result t,
  t ∈ pick all_tools names result -> t ∈ result \/ t ∈ all_tools.
Proof.
  induction names as [|n names IH]; intros result t; simpl; [by left|].
  destruct (filter (fun t => name t = n) all_tools) as [|t' matching] eqn:Hm.
  - apply IH.
  - intros [Hin|Hin]%IH; [|by right].
    apply elem_of_app in Hin as [Hin|Hin%list_elem_of_singleton]; [by left|].
    subst. right.
    assert (t' ∈ filter (fun t => name t = n) all_tools) as Hin
      by (rewrite Hm; by left).
    by apply list_elem_of_filter in Hin as [_ Hin].
Qed.

(** X26.  [get_tools_by_names] never raises.  The tools it returns are
    tools of the factory, and their names are the requested names, in the
    order of the request and with its repetitions, without the names no
    tool of the factory has. *)
Theorem tools_by_names f names :
  exists tools,
    get_tools_by_names f names = Return tools /\
    name <$> tools = filter (fun n => n ∈ name <$> available f) names /\
    (forall t, t ∈ tools -> t ∈ available f).
Proof.
  unfold get_tools_by_names. rewrite create_all_tools_available.
  eexists. split_and!; [done| |].
  - by rewrite pick_names.
  - intros t [Hin|Hin]%pick_from; [|done]. by apply elem_of_nil in Hin.
Qed.

End FactoryFacts.

Section ToolkitFacts.
Import ToolFactory.
Context (W : world).
Implicit Types (t : state MCPToolkit).

Ltac run_toolkit :=
  unfold toolkit_init, get_client_service, get_server_service, on_factory,
    init_client_service, init_server_service, new_server_service,
    ServerService.__init__, ServerService.wrap, new_toolkit, new,
    bind, get, ret, raise, try_except, modify; simpl.

(** X27.  Constructing a toolkit.  In client mode the construction
    cannot fail and involves no collaborator.  In the two modes with a
    server it instantiates the default server class once and fails, with
    the [RuntimeError] of the server service, exactly when that
    instantiation fails. *)
Theorem toolkit_construction m tr :
  toolkit_init W (State (new_toolkit client) tr)
  = (Return tt,
     State {| toolkit_mode := client;
              factory := {| _client_service :=
                              Some (ClientService.__init__ false);
                            _server_service := None |} |} tr) /\
  (m <> client ->
   (toolkit_init W (State (new_toolkit m) tr)).1
   = match on_new W tr "MCPServerClass" [] ∅ with
     | Return _ => Return tt
     | Raise e =>
         Raise (Exn RuntimeError
                    ("Failed to create MCP server: " +:+ exn_str e) (Some e))
     end /\
   log (toolkit_init W (State (new_toolkit m) tr)).2
   = tr ++ [New "MCPServerClass" [] ∅]).
Proof.
  split; [done|]. intros Hm.
  destruct m; [done|..]; run_toolkit; by destruct (on_new W tr _ _ _).
Qed.


End ToolkitFacts.

(* ===================================================================== *)
(** * The further properties on concrete collaborators                   *)
(* ===================================================================== *)

Section ServerScenarios.
Import ServerService Worlds Scenarios.

Lemma quiet_is_obliging : obliging quiet.
Proof. split; intros; by eexists. Qed.

(** Polling the service the constructor made. *)
Lemma polling_a_stopped_server_witness :
  stop quiet (State fresh_server [])
  = (Return "Server is not currently running", State fresh_server []) /\
  get_url quiet (State fresh_server [])
  = (Return (VStr "Server is not currently running"), State fresh_server []).
Proof.
  by apply (polling_a_stopped_server quiet (State fresh_server [])).
Defined.

(** A handle whose stop primitive raises. *)
Lemma stop_failure_keeps_running_witness :
  stop (raising "stop" "Stop failed") (State running_server [])
  = (Raise (Exn RuntimeError "Failed to stop server: Stop failed"
                (Some (Exn (OtherException "Exception") "Stop failed" None))),
     State running_server [Call 0 "stop" [] ∅]).
Proof.
  by apply (stop_failure_keeps_running (raising "stop" "Stop failed")
              (State running_server []) 0
              (Exn (OtherException "Exception") "Stop failed" None)).
Defined.

(** Two stops in a row. *)
Lemma stop_twice_witness :
  (stop quiet ;; stop quiet) (State running_server [])
  = (Return "Server is not currently running",
     State fresh_server [Call 0 "stop" [] ∅]).
Proof.
  by apply (stop_twice quiet (State running_server []) 0 VNone).
Defined.

(** Start at localhost:8000, stop, start at 0.0.0.0:9000. *)
Lemma restart_takes_the_new_address_witness :
  ((start quiet "localhost" 8000 ;; stop quiet ;; start quiet "0.0.0.0" 9000)
     (State fresh_server [])).1
  = Return "Server started at http://0.0.0.0:9000" /\
  ((start quiet "localhost" 8000 ;; start quiet "0.0.0.0" 9000)
     (State fresh_server [])).1
  = Return "Server is already running: http://localhost:8000".
Proof.
  destruct (restart_takes_the_new_address quiet (State fresh_server []) 0
              "localhost" 8000 "0.0.0.0" 9000 quiet_is_obliging
              eq_refl eq_refl) as (Hrestart & _ & Htwice & _).
  by rewrite Hrestart, Htwice.
Defined.

(** A handle without a URL of its own, and one with. *)
Lemma get_url_prefers_the_handle_witness :
  (get_url (answering "get_url" (VStr "")) (State running_elsewhere [])).1
  = Return (VStr "http://0.0.0.0:9000") /\
  (get_url (answering "get_url" (VStr "http://mcp.example"))
           (State running_elsewhere [])).1
  = Return (VStr "http://mcp.example").
Proof.
  split.
  - by rewrite (get_url_prefers_the_handle (answering "get_url" (VStr ""))
                  (State running_elsewhere []) 0 (VStr "")).
  - by rewrite (get_url_prefers_the_handle
                  (answering "get_url" (VStr "http://mcp.example"))
                  (State running_elsewhere []) 0 (VStr "http://mcp.example")).
Defined.

(** The exception of a failed [add_resource] has the wrapped shape. *)
Lemma server_errors_are_wrapped_witness :
  wrapped (Exn RuntimeError "Failed to add resource: Add resource failed"
               (Some (Exn (OtherException "Exception") "Add resource failed"
                          None))).
Proof.
  destruct (server_errors_are_wrapped
              (raising "add_resource" "Add resource failed")
              (State running_server [])
              (Exn RuntimeError "Failed to add resource: Add resource failed"
                   (Some (Exn (OtherException "Exception")
                              "Add resource failed" None))))
    as (_ & _ & _ & _ & Hres & _).
  by apply (Hres "test_resource" (VStr "content") "").
Defined.

(** [len] is in the namespace, [open] is not. *)
Lemma safe_namespace_is_the_allow_list_witness :
  is_Some (safe_namespace quiet !! "len") /\
  ~ is_Some (safe_namespace quiet !! "open").
Proof.
  split.
  - destruct (safe_namespace_is_the_allow_list quiet "len")
      as (_ & _ & _ & Hlen).
    apply Hlen; by apply (bool_decide_unpack _).
  - destruct (safe_namespace_is_the_allow_list quiet "open") as (Hopen & _).
    intros Hin%Hopen. revert Hin. by apply (bool_decide_eq_false_1 _).
Defined.

(** [MCPServerService(server_type="custom")] *)
Lemma unsupported_server_type_witness :
  (__init__ quiet (Some "custom") (State blank [])).1
  = Raise
      (Exn RuntimeError
         ("Failed to create MCP server: Failed to create server type "
          +:+ "'custom': Unsupported server type: custom")
         (Some
            (Exn RuntimeError
               "Failed to create server type 'custom': Unsupported server type: custom"
               (Some (Exn ValueError "Unsupported server type: custom"
                          None))))).
Proof.
  by rewrite (unsupported_server_type quiet "custom" []).
Defined.

(** The first access to [server] on a service without handle creates
    handle 0; the second access returns it again. *)
Lemma server_property_is_lazy_witness :
  server quiet (State (set_server VNone fresh_server)
                      [New "MCPServerClass" [] ∅])
  = (Return (VObj 1),
     State (set_server (VObj 1) fresh_server)
           [New "MCPServerClass" [] ∅; New "MCPServerClass" [] ∅]) /\
  server quiet (State (set_server (VObj 1) fresh_server)
                      [New "MCPServerClass" [] ∅; New "MCPServerClass" [] ∅])
  = (Return (VObj 1),
     State (set_server (VObj 1) fresh_server)
           [New "MCPServerClass" [] ∅; New "MCPServerClass" [] ∅]).
Proof.
  split; [done|].
  by apply (server_property_is_lazy quiet
              (State (set_server VNone fresh_server)
                     [New "MCPServerClass" [] ∅])).
Defined.

End ServerScenarios.

Section ClientScenarios.
Import ClientService PromptSpec ClientTools Worlds Scenarios.

(** A router that cannot be built: the failure of the multi-server
    constructor leaves a fresh service fresh. *)
Lemma create_failure_changes_nothing_witness :
  self (create (raising_new "Connection failed") (Configs ∅) "sse" None None
               VNone (State (__init__ false) [])).2
  = __init__ false.
Proof.
  by destruct (create_failure_changes_nothing
                 (raising_new "Connection failed") (Configs ∅) "sse" None None
                 VNone (State (__init__ false) []) _ eq_refl) as [_ ->].
Defined.

(** A multi-server configuration puts the service in multi-endpoint
    mode. *)
Lemma create_success_fixes_the_mode_witness :
  _is_multi_client
    (self (create quiet
                  (Configs {[ "a" := {[ "url" := VStr "http://a/sse";
                                         "transport" := VStr "sse" ]} ]})
                  "sse" None None VNone (State (__init__ false) [])).2)
  = true.
Proof.
  by destruct (create_success_fixes_the_mode quiet
                 (Configs {[ "a" := {[ "url" := VStr "http://a/sse";
                                        "transport" := VStr "sse" ]} ]})
                 "sse" None None VNone (State (__init__ false) []) _ eq_refl)
    as (_ & _ & _ & ->).
Defined.

(** A second [create], and a [create] over websocket. *)
Lemma create_refusals_witness :
  create quiet (Url "http://localhost:8000") "sse" None None VNone
         (State (connected_client false) [])
  = (Raise (Exn ValueError "Client service already connected" None),
     State (connected_client false) []) /\
  create quiet (Url "http://localhost:8000") "websocket" None None VNone
         (State (__init__ false) [])
  = (Raise (Exn ValueError "Unsupported transport type: websocket" None),
     State (__init__ false) []).
Proof.
  split.
  - by apply (create_refusals quiet (Url "http://localhost:8000")
                "http://localhost:8000" "sse" None None VNone
                (State (connected_client false) [])).
  - by apply (create_refusals quiet (Url "http://localhost:8000")
                "http://localhost:8000" "websocket" None None VNone
                (State (__init__ false) [])).
Defined.

(** A handle whose connect primitive raises, on a service that was
    disconnected. *)
Lemma connect_errors_pass_through_witness :
  connect (raising "connect" "Connection failed")
          (State disconnected_client [])
  = (Raise (Exn (OtherException "Exception") "Connection failed" None),
     State disconnected_client [Call 0 "connect" [] ∅]).
Proof.
  by apply (connect_errors_pass_through (raising "connect" "Connection failed")
              (State disconnected_client []) 0
              (Exn (OtherException "Exception") "Connection failed" None)).
Defined.

(** Disconnect, a call that is refused, connect again. *)
Lemma disconnect_then_reconnect_witness :
  self (disconnect quiet (State (connected_client false) [])).2
  = disconnected_client /\
  (call_tool quiet "default" "toolX" ∅
             (disconnect quiet (State (connected_client false) [])).2).1
  = Raise not_connected /\
  self (connect quiet (disconnect quiet (State (connected_client false) [])).2).2
  = connected_client false.
Proof.
  destruct (disconnect_then_reconnect quiet (State (connected_client false) [])
              0 VNone VNone "default" "toolX" ∅ eq_refl eq_refl eq_refl)
    as (_ & Hself & Hcall & _ & Hagain).
  by rewrite Hself, Hcall, Hagain.
Defined.

(** [read_resource] and [get_prompt] on a single session. *)
Lemma single_mode_forwards_witness :
  read_resource quiet "cities" "ignored" (State (connected_client false) [])
  = (Return VNone,
     State (connected_client false)
           [Call 0 "read_resource" [VStr "cities"] ∅]) /\
  get_prompt quiet "greeting" None "ignored" (State (connected_client false) [])
  = (Return VNone,
     State (connected_client false)
           [Call 0 "get_prompt" [VStr "greeting"; VNone] ∅]).
Proof.
  destruct (single_mode_forwards quiet (State (connected_client false) []) 0
              true "ignored" "cities" "greeting" None eq_refl eq_refl eq_refl)
    as (_ & _ & Hread & _ & Hprompt).
  by rewrite Hread, Hprompt.
Defined.

(** A router that resolves every name to object 7. *)
Lemma multi_mode_resolves_witness :
  list_resources (answering "get_client" (VObj 7)) "serverA"
                 (State (connected_client true) [])
  = (Return VNone,
     State (connected_client true)
           [Call 0 "get_client" [VStr "serverA"] ∅;
            Call 7 "list_resources" [] ∅]).
Proof.
  destruct (multi_mode_resolves (answering "get_client" (VObj 7))
              (State (connected_client true) []) 0 7 true "serverA" "cities"
              "greeting" None eq_refl eq_refl eq_refl eq_refl)
    as (_ & Hres & _).
  by rewrite Hres.
Defined.

(** The two requests of a single session for a prompt without
    arguments and with empty arguments. *)
Lemma prompt_arguments_default_witness :
  get_prompt (answering "get_client" (VObj 7)) "greeting" None "serverA"
             (State (connected_client true) [])
  = get_prompt (answering "get_client" (VObj 7)) "greeting" (Some ∅) "serverA"
               (State (connected_client true) []) /\
  log (get_prompt quiet "greeting" None "serverA"
                  (State (connected_client false) [])).2
  = [Call 0 "get_prompt" [VStr "greeting"; VNone] ∅].
Proof.
  split.
  - by apply (prompt_arguments_default (answering "get_client" (VObj 7))
                (State (connected_client true) []) 0 "greeting" "serverA").
  - destruct (prompt_arguments_default quiet
                (State (connected_client false) []) 0 "greeting" "serverA"
                eq_refl eq_refl) as [_ Hsingle].
    by destruct (Hsingle eq_refl) as [-> _].
Defined.

(** An empty target on a router. *)
Lemma empty_target_is_no_target_witness :
  get_tools quiet (Some "") (State (connected_client true) [])
  = (Return VNone,
     State (connected_client true) [Call 0 "get_tools" [] ∅]).
Proof.
  destruct (empty_target_is_no_target quiet (State (connected_client true) [])
              (Some "") (VList []) "cities" "A, B" (or_introl eq_refl))
    as (_ & -> & _).
  done.
Defined.

(** The template for a server the router does not know. *)
Lemma async_prompt_soft_miss_witness :
  get_langchain_prompt_async quiet (Some "nowhere") true
                             (State (connected_client true) [])
  = (Return (from_messages [MessagesPlaceholder "chat_history"]),
     State (connected_client true)
           [Call 0 "get_client" [VStr "nowhere"] ∅]).
Proof.
  by apply (async_prompt_soft_miss quiet (State (connected_client true) []) 0
              "nowhere" VNone true).
Defined.


(** The tool asked for resource "cities" of server "serverA". *)
Lemma read_resource_tool_argument_order_witness :
  ClientReadResourceTool_run quiet true "cities" "serverA"
                             (State (connected_client false) [])
  = (Return VNone,
     State (connected_client false)
           [Call 0 "read_resource" [VStr "serverA"] ∅]).
Proof.
  destruct (read_resource_tool_argument_order quiet
              (State (connected_client false) []) 0 "cities" "serverA"
              eq_refl eq_refl) as [Hsingle _].
  by rewrite Hsingle.
Defined.

(** The converter is called although there is no prompt. *)
Lemma langchain_prompt_of_unknown_server_witness :
  get_langchain_prompt quiet "greeting" None "nowhere"
                       (State (connected_client true) [])
  = (Return [VObj 1],
     State (connected_client true)
           [Call 0 "get_client" [VStr "nowhere"] ∅;
            New "convert_mcp_prompt_message_to_langchain_message"
                [VDict ∅] ∅]).
Proof.
  by apply (langchain_prompt_of_unknown_server quiet
              (State (connected_client true) []) 0 "greeting" None "nowhere"
              VNone 1).
Defined.

(** A prompt whose content is a number: the message class refuses it
    and the conversion raises. *)
Example test_prompt_with_numeric_content :
  (get_langchain_prompt_sync
     (prompting (VList [VDict {[ "role" := VStr "user";
                                 "content" := VInt 5 ]}]))
     None true (State (connected_client false) [])).1
  = Raise (validation_error "HumanMessage").
Proof. reflexivity. Qed.

End ClientScenarios.

Section FactoryScenarios.
Import ToolFactory Worlds.

(** A factory with both services, one with none. *)
Lemma all_tools_of_a_factory_witness :
  (exists e, create_client_tools ToolFactory.__init__ = Raise e /\
             exn_cls e = ValueError) /\
  NoDup (name <$> available
           {| _client_service := Some (ClientService.__init__ false);
              _server_service := Some fresh_server |}).
Proof.
  split.
  - destruct (all_tools_of_a_factory ToolFactory.__init__)
      as (_ & _ & Hclient & _).
    by apply Hclient.
  - by destruct (all_tools_of_a_factory
                   {| _client_service := Some (ClientService.__init__ false);
                      _server_service := Some fresh_server |})
      as (_ & Hnames & _).
Defined.

(** A request with an unknown name and a repetition, to a factory that
    has a server service only. *)
Lemma tools_by_names_witness :
  exists tools,
    get_tools_by_names
      {| _client_service := None; _server_service := Some fresh_server |}
      ["server_stop"; "client_create"; "no_such_tool"; "server_start";
       "server_stop"]
    = Return tools /\
    name <$> tools = ["server_stop"; "server_start"; "server_stop"].
Proof.
  destruct (tools_by_names
              {| _client_service := None;
                 _server_service := Some fresh_server |}
              ["server_stop"; "client_create"; "no_such_tool"; "server_start";
               "server_stop"]) as (tools & Htools & Hnames & _).
  exists tools. split; [done|]. by rewrite Hnames.
Defined.

Example test_get_tools_by_names :
  get_tools_by_names
    {| _client_service := None; _server_service := Some fresh_server |}
    ["server_stop"; "client_create"; "no_such_tool"; "server_start";
     "server_stop"]
  = Return [ServerStopTool; ServerStartTool; ServerStopTool].
Proof. reflexivity. Qed.

(** A toolkit for a server, with collaborators that cannot make one. *)
Lemma toolkit_construction_witness :
  (toolkit_init (raising_new "No server") (State (new_toolkit server) [])).1
  = Raise (Exn RuntimeError "Failed to create MCP server: No server"
               (Some (Exn (OtherException "Exception") "No server" None))).
Proof.
  destruct (toolkit_construction (raising_new "No server") server [])
    as [_ Hserver].
  by destruct (Hserver ltac:(done)) as [-> _].
Defined.


End FactoryScenarios.
